(** * EfficientNet / MixNet encoders of pytorch_toolbelt

    A shallow embedding of
    [pytorch_toolbelt/modules/encoders/timm/efficient_net.py]:
    the stem-convolution channel adapter
    [make_n_channel_input_conv2d_same], the nine encoder classes
    ([B0Encoder] .. [B7Encoder], [MixNetXLEncoder]) with their
    constructors, [forward] and [change_input_channels].

    Python objects that the code compares by identity or mutates in place
    (the [nn.Conv2d] modules) live in a store indexed by references;
    exceptions, [warnings.warn] and the calls made to the external model
    provider are effects of a small state-and-error monad. *)

From Stdlib Require Import ZArith QArith Lia.
From stdpp Require Import gmap strings list fin_maps.

Local Open Scope Z_scope.
Set Warnings "-register-all".

(** ** Python values, exceptions, tensors *)

(** Values of the dynamically typed hyper-parameters ([kernel_size],
    [stride], ... and the entries of [**kwargs]). *)
Inductive PyVal : Type :=
| VNone
| VBool (b : bool)
| VInt (z : Z)
| VStr (s : string)
| VTuple (items : list PyVal).

(** An exception: the name of its class and its message. *)
Record PyExn : Type := mkExn { exn_class : string; exn_msg : string }.

Inductive Outcome (A : Type) : Type :=
| Raise (e : PyExn)
| Return (a : A).
Arguments Raise {A} e.
Arguments Return {A} a.

(** A 4-d tensor [[d0, d1, h, w]] as nested lists; the code only ever
    indexes the first two axes (for a weight: output channel, then input
    channel).  The element type is left open: elements are moved around and
    never computed with. *)
Abbreviation Tensor4 scalar := (list (list (list (list scalar)))) (only parsing).

(** [nn.Parameter(data, requires_grad)]. *)
Record NNParameter (scalar : Type) : Type := mkParameter {
  data : Tensor4 scalar;
  requires_grad : bool
}.
Arguments mkParameter {scalar} data requires_grad.
Arguments data {scalar} _.
Arguments requires_grad {scalar} _.

(** The attributes of an [nn.Conv2d] module that the code reads or writes. *)
Record Conv2d (scalar : Type) : Type := mkConv2d {
  in_channels : Z;
  out_channels : Z;
  kernel_size : PyVal;
  stride : PyVal;
  padding : PyVal;
  dilation : PyVal;
  groups : PyVal;
  bias : option (list scalar);
  weight : NNParameter scalar
}.
Arguments mkConv2d {scalar}.
Arguments in_channels {scalar} _.
Arguments out_channels {scalar} _.
Arguments kernel_size {scalar} _.
Arguments stride {scalar} _.
Arguments padding {scalar} _.
Arguments dilation {scalar} _.
Arguments groups {scalar} _.
Arguments bias {scalar} _.
Arguments weight {scalar} _.

(** References to module objects. *)
Definition loc : Type := positive.

(** The arguments of the call [Conv2dSame(in_channels, out_channels=...,
    kernel_size=..., stride=..., padding=..., dilation=..., groups=...,
    bias=...)]. *)
Record ConvArgs : Type := mkConvArgs {
  arg_in_channels : Z;
  arg_out_channels : Z;
  arg_kernel_size : PyVal;
  arg_stride : PyVal;
  arg_padding : PyVal;
  arg_dilation : PyVal;
  arg_groups : PyVal;
  arg_bias : PyVal
}.

(** ** The backbone and the call that builds it *)

(** [act_layer : Union[str, nn.Module]]: the name of an activation, or an
    activation module (identified by its name). *)
Inductive ActLayer : Type :=
| ActStr (name : string)
| ActModule (name : string).

(** [Swish], the default of [act_layer]. *)
Definition Swish : ActLayer := ActModule "Swish".

(** A call [fn(pretrained=..., features_only=..., act_layer=...,
    drop_path_rate=...)] of a model function of [timm.models.efficientnet];
    the decimal literal of the drop-path rate is kept as a rational. *)
Record ProviderCall : Type := mkProviderCall {
  model_fn : string;
  pretrained : bool;
  features_only : bool;
  act_layer : ActLayer;
  drop_path_rate : Q
}.

(** One block of a block group: its sub-modules by attribute name
    ([conv_dw], [conv_pw], [conv_pwl], ...). *)
Definition Block : Type := gmap string loc.

(** The backbone returned by the provider, as far as this file addresses it:
    [encoder.conv_stem] and [encoder.blocks[i][j]]. *)
Record Backbone : Type := mkBackbone {
  conv_stem : loc;
  blocks : list (list Block)
}.

(** ** State and effects *)

Record State (scalar : Type) : Type := mkState {
  heap : gmap loc (Conv2d scalar);
  warnings : list string;
  provider_calls : list ProviderCall
}.
Arguments mkState {scalar}.
Arguments heap {scalar} _.
Arguments warnings {scalar} _.
Arguments provider_calls {scalar} _.

Definition M (scalar : Type) (A : Type) : Type :=
  State scalar → Outcome A * State scalar.

#[global] Instance M_ret {scalar} : MRet (M scalar) :=
  λ A (a : A) s, (Return a, s).

#[global] Instance M_bind {scalar} : MBind (M scalar) :=
  λ A B (f : A → M scalar B) (m : M scalar A) s,
    match m s with
    | (Return a, s') => f a s'
    | (Raise e, s') => (Raise e, s')
    end.

Definition raise {scalar A} (cls msg : string) : M scalar A :=
  λ s, (Raise (mkExn cls msg), s).

Definition lift {scalar A} (o : Outcome A) : M scalar A :=
  λ s, (o, s).

(** [warnings.warn(msg)]. *)
Definition warnings_warn {scalar} (msg : string) : M scalar unit :=
  λ s, (Return tt, mkState (heap s) (warnings s ++ [msg]) (provider_calls s)).

(** [assert isinstance(conv, nn.Conv2d)]: the store holds the [nn.Conv2d]
    objects, a reference to anything else fails the assertion. *)
Definition assert_isinstance_Conv2d {scalar} (conv : loc) : M scalar (Conv2d scalar) :=
  λ s, match heap s !! conv with
       | Some c => (Return c, s)
       | None => (Raise (mkExn "AssertionError" ""), s)
       end.

(** A freshly constructed module gets a reference that is not in use. *)
Definition alloc {scalar} (c : Conv2d scalar) : M scalar loc :=
  λ s, let l := fresh (dom (heap s)) in
       (Return l, mkState (<[l := c]> (heap s)) (warnings s) (provider_calls s)).

(** Attribute assignment [obj.attr = v] on the module at [l]. *)
Definition setattr {scalar} (l : loc) (f : Conv2d scalar → Conv2d scalar) : M scalar unit :=
  λ s, (Return tt, mkState (alter f l (heap s)) (warnings s) (provider_calls s)).

Definition set_weight {scalar} (p : NNParameter scalar) (c : Conv2d scalar) : Conv2d scalar :=
  mkConv2d (in_channels c) (out_channels c) (kernel_size c) (stride c)
           (padding c) (dilation c) (groups c) (bias c) p.

Definition set_stride {scalar} (v : PyVal) (c : Conv2d scalar) : Conv2d scalar :=
  mkConv2d (in_channels c) (out_channels c) (kernel_size c) v
           (padding c) (dilation c) (groups c) (bias c) (weight c).

Definition set_dilation {scalar} (v : PyVal) (c : Conv2d scalar) : Conv2d scalar :=
  mkConv2d (in_channels c) (out_channels c) (kernel_size c) (stride c)
           (padding c) v (groups c) (bias c) (weight c).

(** ** External collaborators

    None of these is code of this file: the convolution class of
    [timm.models.layers], the model functions of
    [timm.models.efficientnet], [get_activation_block] and the forward pass
    of the backbone.  They are an interface here. *)
Class Externals (scalar : Type) : Type := mkExternals {
  (** [Conv2dSame(...)]: the new module (with whatever initial weight and
      bias the library gives it), or the exception of the constructor. *)
  Conv2dSame : ConvArgs → Outcome (Conv2d scalar);
  (** A model function of the provider: builds a backbone, placing its
      convolutions in the store. *)
  timm_model : ProviderCall → gmap loc (Conv2d scalar) →
               Outcome Backbone * gmap loc (Conv2d scalar);
  (** [get_activation_block(name)]. *)
  get_activation_block : string → Outcome ActLayer;
  (** [self.encoder(x)]: the list of feature maps. *)
  backbone_forward : Backbone → gmap loc (Conv2d scalar) → Tensor4 scalar →
                     Outcome (list (Tensor4 scalar))
}.

(** ** Library operations used by the adapter *)

(** [kwargs.get(key, default)]. *)
Definition kwargs_get (kwargs : gmap string PyVal) (key : string) (dflt : PyVal) : PyVal :=
  default dflt (kwargs !! key).

(** [math.ceil(a / float(b))].  The quotient of the two integers is taken
    exactly (the double-precision quotient has the same ceiling for
    magnitudes below 2^53); division by zero raises. *)
Definition math_ceil_div (a b : Z) : Outcome Z :=
  if decide (b = 0) then Raise (mkExn "ZeroDivisionError" "float division by zero")
  else Return (- ((- a) / b)).

(** [[w] * n]: a list of [n] references to the same tensor, empty for
    [n <= 0]. *)
Definition list_mul {A} (x : A) (n : Z) : list A := replicate (Z.to_nat n) x.

(** [torch.cat(ts, dim=1)]: concatenation along the second axis, row by
    row.  An empty list of tensors is an error.  The tensors of the only
    call in this file are copies of one tensor, so their other dimensions
    agree. *)
Definition torch_cat_dim1 {scalar} (ts : list (Tensor4 scalar)) : Outcome (Tensor4 scalar) :=
  match ts with
  | [] => Raise (mkExn "RuntimeError" "torch.cat(): expected a non-empty list of Tensors")
  | t :: rest => Return (foldl (zip_with app) t rest)
  end.

(** The number of items kept by the Python slice [[0:stop]] (or [[:stop]])
    of a sequence of length [len]: a negative [stop] counts from the end. *)
Definition slice_stop (len : nat) (stop : Z) : nat :=
  if decide (stop < 0) then Z.to_nat (Z.max 0 (Z.of_nat len + stop))
  else Z.to_nat stop.

(** [w[:, :stop, ...]] and [w[:, 0:stop, ...]]. *)
Definition slice_dim1 {scalar} (w : Tensor4 scalar) (stop : Z) : Tensor4 scalar :=
  (λ row, take (slice_stop (length row) stop) row) <$> w.

(** ** The channel adapter *)

Section Adapter.
Context {scalar : Type} `{!Externals scalar}.

(** The arguments of the constructor call of lines 32-41: the requested
    channel count, the output channels of [conv], and each other
    hyper-parameter from [kwargs] when given there, else from [conv]. *)
Definition new_conv_args (c : Conv2d scalar) (n_in : Z) (kwargs : gmap string PyVal)
    : ConvArgs := {|
  arg_in_channels := n_in;
  arg_out_channels := out_channels c;
  arg_kernel_size := kwargs_get kwargs "kernel_size" (kernel_size c);
  arg_stride := kwargs_get kwargs "stride" (stride c);
  arg_padding := kwargs_get kwargs "padding" (padding c);
  arg_dilation := kwargs_get kwargs "dilation" (dilation c);
  arg_groups := kwargs_get kwargs "groups" (groups c);
  arg_bias := kwargs_get kwargs "bias" (VBool (bool_decide (bias c ≠ None)))
|}.

(** [make_n_channel_input_conv2d_same(conv, in_channels, mode="auto",
    **kwargs)].  The parameter [in_channels] is [n_in] here, the field
    accessor has the name. *)
Definition make_n_channel_input_conv2d_same
    (conv : loc) (n_in : Z) (mode : PyVal) (kwargs : gmap string PyVal) : M scalar loc :=
  c ← assert_isinstance_Conv2d conv;
  if decide (in_channels c = n_in) then
    warnings_warn "make_n_channel_input call is spurious";;
    mret conv
  else
    nc ← lift (Conv2dSame (new_conv_args c n_in kwargs));
    new_conv ← alloc nc;
    let w := data (weight c) in
    if decide (n_in > in_channels c) then
      n ← lift (math_ceil_div n_in (in_channels c));
      w ← lift (torch_cat_dim1 (list_mul w n));
      let w := slice_dim1 w n_in in
      setattr new_conv (set_weight (mkParameter w true));;
      mret new_conv
    else
      let w := slice_dim1 w n_in in
      setattr new_conv (set_weight (mkParameter w true));;
      mret new_conv.
End Adapter.

(** ** The encoders *)

(** Modelled from the spec: [EncoderModule] of [..common] is not part of
    this file; per the spec's data model an encoder keeps the five stage
    channel counts, the five nominal strides and the requested stages.
    [_layers] is the attribute [forward] reads. *)
Record EncoderModule : Type := mkEncoderModule {
  channels : list Z;
  strides : list Z;
  _layers : list Z
}.

(** Modelled from the spec: [super().__init__(channels, strides, layers)]
    of the missing [EncoderModule], storing the descriptor. *)
Definition EncoderModule_init (channels strides layers : list Z) : EncoderModule :=
  mkEncoderModule channels strides layers.

(** An encoder object: the inherited part and [self.encoder]. *)
Record Encoder : Type := mkEncoder {
  base : EncoderModule;
  encoder : Backbone
}.

(** Modelled from the spec: [_take] of [..common] is not part of this file.
    The spec has it select the outputs whose 1-indexed stage position
    appears in the requested stages, in the order of the request, and has a
    requested stage outside {1,2,3,4} fail with [InvalidArgument]. *)
Definition stage_output {A} (elements : list A) (i : Z) : Outcome A :=
  if decide (1 ≤ i ≤ 4) then
    match elements !! Z.to_nat (i - 1) with
    | Some x => Return x
    | None => Raise (mkExn "IndexError" "list index out of range")
    end
  else Raise (mkExn "InvalidArgument" "requested stage outside {1,2,3,4}").

(** Modelled from the spec: see [stage_output]. *)
Fixpoint _take {A} (elements : list A) (indexes : list Z) : Outcome (list A) :=
  match indexes with
  | [] => Return []
  | i :: rest =>
      match stage_output elements i with
      | Raise e => Raise e
      | Return x =>
          match _take elements rest with
          | Raise e => Raise e
          | Return xs => Return (x :: xs)
          end
      end
  end.

(** The classes of the file. *)
Inductive EncoderClass : Type :=
| B0Encoder | B1Encoder | B2Encoder | B3Encoder | B4Encoder
| B5Encoder | B6Encoder | B7Encoder | MixNetXLEncoder.

Section Encoders.
Context {scalar : Type} `{!Externals scalar}.

(** Calling a model function of the provider; the call is recorded. *)
Definition call_model (c : ProviderCall) : M scalar Backbone :=
  λ s, let '(o, h) := timm_model c (heap s) in
       (o, mkState h (warnings s) (provider_calls s ++ [c])).

(** [if isinstance(act_layer, str): act_layer = get_activation_block(act_layer)]. *)
Definition resolve_act_layer (act_layer : ActLayer) : M scalar ActLayer :=
  match act_layer with
  | ActStr name => lift (get_activation_block name)
  | ActModule _ => mret act_layer
  end.

(** The object [encoder.blocks[i][j].conv_dw]. *)
Definition blocks_conv_dw (encoder : Backbone) (i j : nat) : M scalar loc :=
  match blocks encoder !! i with
  | None => raise "IndexError" "index out of range"
  | Some group =>
      match group !! j with
      | None => raise "IndexError" "index out of range"
      | Some block =>
          match block !! "conv_dw" with
          | None => raise "AttributeError" "conv_dw"
          | Some l => mret l
          end
      end
  end.

(** The body shared, line for line, by [B0Encoder.__init__] ..
    [B7Encoder.__init__]; the classes differ in the model function, in
    the drop-path rate and in the channel counts. *)
Definition EfficientNetEncoder_init (fn : string) (rate : Q) (chs : list Z)
    (pretrained : bool) (layers : list Z) (act_layer : ActLayer) (no_stride : bool)
    : M scalar Encoder :=
  act_layer ← resolve_act_layer act_layer;
  encoder ← call_model {|
    model_fn := fn; pretrained := pretrained; features_only := true;
    act_layer := act_layer; drop_path_rate := rate |};
  let strides := [2; 4; 8; 16; 32] in
  strides ← (if no_stride then
    dw ← blocks_conv_dw encoder 5 0;
    setattr dw (set_stride (VTuple [VInt 1; VInt 1]));;
    dw ← blocks_conv_dw encoder 5 0;
    setattr dw (set_dilation (VTuple [VInt 2; VInt 2]));;
    dw ← blocks_conv_dw encoder 3 0;
    setattr dw (set_stride (VTuple [VInt 1; VInt 1]));;
    dw ← blocks_conv_dw encoder 3 0;
    setattr dw (set_dilation (VTuple [VInt 2; VInt 2]));;
    let strides := <[3%nat := 8]> strides in
    let strides := <[4%nat := 8]> strides in
    mret strides
  else mret strides);
  mret (mkEncoder (EncoderModule_init chs strides layers) encoder).

Definition B0Encoder_init :=
  EfficientNetEncoder_init "tf_efficientnet_b0_ns" 0.05 [16; 24; 40; 112; 320].
Definition B1Encoder_init :=
  EfficientNetEncoder_init "tf_efficientnet_b1_ns" 0.05 [16; 24; 40; 112; 320].
Definition B2Encoder_init :=
  EfficientNetEncoder_init "tf_efficientnet_b2_ns" 0.1 [16; 24; 48; 120; 352].
Definition B3Encoder_init :=
  EfficientNetEncoder_init "tf_efficientnet_b3_ns" 0.1 [24; 32; 48; 136; 384].
Definition B4Encoder_init :=
  EfficientNetEncoder_init "tf_efficientnet_b4_ns" 0.2 [24; 32; 56; 160; 448].
Definition B5Encoder_init :=
  EfficientNetEncoder_init "tf_efficientnet_b5_ns" 0.2 [24; 40; 64; 176; 512].
Definition B6Encoder_init :=
  EfficientNetEncoder_init "tf_efficientnet_b6_ns" 0.2 [32; 40; 72; 200; 576].
Definition B7Encoder_init :=
  EfficientNetEncoder_init "tf_efficientnet_b7_ns" 0.2 [32; 48; 80; 224; 640].

(** [MixNetXLEncoder.__init__(self, pretrained, layers, act_layer)]. *)
Definition MixNetXLEncoder_init
    (pretrained : bool) (layers : list Z) (act_layer : ActLayer) : M scalar Encoder :=
  act_layer ← resolve_act_layer act_layer;
  encoder ← call_model {|
    model_fn := "mixnet_xl"; pretrained := pretrained; features_only := true;
    act_layer := act_layer; drop_path_rate := 0.2 |};
  mret (mkEncoder (EncoderModule_init [40; 48; 64; 192; 320] [2; 4; 8; 16; 32] layers)
                  encoder).

(** The call [cls(pretrained=..., layers=..., act_layer=...)], with
    [no_stride=...] when [no_stride] is [Some _].  [no_stride] defaults to
    [False] where the signature has it; a keyword the signature lacks is a
    [TypeError]. *)
Definition construct (cls : EncoderClass) (pretrained : bool) (layers : list Z)
    (act_layer : ActLayer) (no_stride : option bool) : M scalar Encoder :=
  let ns := default false no_stride in
  match cls with
  | B0Encoder => B0Encoder_init pretrained layers act_layer ns
  | B1Encoder => B1Encoder_init pretrained layers act_layer ns
  | B2Encoder => B2Encoder_init pretrained layers act_layer ns
  | B3Encoder => B3Encoder_init pretrained layers act_layer ns
  | B4Encoder => B4Encoder_init pretrained layers act_layer ns
  | B5Encoder => B5Encoder_init pretrained layers act_layer ns
  | B6Encoder => B6Encoder_init pretrained layers act_layer ns
  | B7Encoder => B7Encoder_init pretrained layers act_layer ns
  | MixNetXLEncoder =>
      match no_stride with
      | Some _ =>
          raise "TypeError" "__init__() got an unexpected keyword argument 'no_stride'"
      | None => MixNetXLEncoder_init pretrained layers act_layer
      end
  end.

(** [forward(self, x)], the same in the nine classes. *)
Definition forward (self : Encoder) (x : Tensor4 scalar) : M scalar (list (Tensor4 scalar)) :=
  features ← (λ s, (backbone_forward (encoder self) (heap s) x, s));
  lift (_take features (_layers (base self))).

(** [change_input_channels(self, input_channels, mode="auto", **kwargs)],
    the same in the nine classes: the stem is replaced and [self]
    returned. *)
Definition change_input_channels (self : Encoder) (input_channels : Z)
    (mode : PyVal) (kwargs : gmap string PyVal) : M scalar Encoder :=
  stem ← make_n_channel_input_conv2d_same
            (conv_stem (encoder self)) input_channels mode kwargs;
  mret (mkEncoder (base self) (mkBackbone stem (blocks (encoder self)))).
End Encoders.

(** ** Vocabulary of the statements *)

(** [act_layer] resolves to [act']: a module is passed through, a name is
    looked up with [get_activation_block]. *)
Definition act_resolves {scalar} `{!Externals scalar} (act_layer act' : ActLayer) : Prop :=
  match act_layer with
  | ActStr name => get_activation_block name = Return act'
  | ActModule _ => act' = act_layer
  end.

(** The reference held at [encoder.blocks[i][j].conv_dw], if the path
    exists. *)
Definition dw_at (encoder : Backbone) (i j : nat) : option loc :=
  group ← blocks encoder !! i; block ← group !! j; block !! "conv_dw".

(** The model function each class imports. *)
Definition class_model_fn (cls : EncoderClass) : string :=
  match cls with
  | B0Encoder => "tf_efficientnet_b0_ns" | B1Encoder => "tf_efficientnet_b1_ns"
  | B2Encoder => "tf_efficientnet_b2_ns" | B3Encoder => "tf_efficientnet_b3_ns"
  | B4Encoder => "tf_efficientnet_b4_ns" | B5Encoder => "tf_efficientnet_b5_ns"
  | B6Encoder => "tf_efficientnet_b6_ns" | B7Encoder => "tf_efficientnet_b7_ns"
  | MixNetXLEncoder => "mixnet_xl"
  end.

(** The drop-path rate written in each constructor. *)
Definition class_drop_path_rate (cls : EncoderClass) : Q :=
  match cls with
  | B0Encoder | B1Encoder => 0.05
  | B2Encoder | B3Encoder => 0.1
  | B4Encoder | B5Encoder | B6Encoder | B7Encoder | MixNetXLEncoder => 0.2
  end.

(** The call a constructor of class [cls] makes to the provider
    ([construct_records_call] below proves that it does). *)
Definition class_call (cls : EncoderClass) (pretrained : bool) (act' : ActLayer)
    : ProviderCall :=
  mkProviderCall (class_model_fn cls) pretrained true act' (class_drop_path_rate cls).

(** The rewrite of the two depthwise convolutions, as a function on the
    store. *)
Definition no_stride_store {scalar} (l5 l3 : loc) (h : gmap loc (Conv2d scalar))
    : gmap loc (Conv2d scalar) :=
  alter (set_dilation (VTuple [VInt 2; VInt 2])) l3
    (alter (set_stride (VTuple [VInt 1; VInt 1])) l3
      (alter (set_dilation (VTuple [VInt 2; VInt 2])) l5
        (alter (set_stride (VTuple [VInt 1; VInt 1])) l5 h))).

(** The state after the adapter has built [nc] at a fresh reference and
    given it the weight [w']. *)
Definition rebuilt {scalar} (s : State scalar) (nc : Conv2d scalar)
    (w' : Tensor4 scalar) : State scalar :=
  mkState (<[fresh (dom (heap s)) := set_weight (mkParameter w' true) nc]> (heap s))
          (warnings s) (provider_calls s).

(** The weight rows (one per output channel) all have [n] channels. *)
Definition channel_axis {scalar} (w : Tensor4 scalar) (n : Z) : Prop :=
  Forall (λ row, Z.of_nat (length row) = n) w.


(** The weight the adapter gives the new module: the original tiled and cut
    when more channels are requested than the convolution has, a slice of
    the original otherwise. *)
Definition adapted_weight {scalar} (c : Conv2d scalar) (n_in : Z) : Tensor4 scalar :=
  if decide (n_in > in_channels c) then
    (λ row, take (Z.to_nat n_in)
              (mjoin (replicate (Z.to_nat (- (- n_in / in_channels c))) row)))
      <$> data (weight c)
  else slice_dim1 (data (weight c)) n_in.

(** The exception of a failed lookup of [blocks[i][j].conv_dw]. *)
Definition is_lookup_error (e : PyExn) : Prop :=
  exn_class e = "IndexError" ∨ exn_class e = "AttributeError".

(** ** A concrete environment

    A small executable stand-in for the external libraries, on which the
    definitions above can be run.  Weights are integers here. *)
Module Sample.

(** [_pair]: an int [k] stands for [(k, k)]. *)
Definition pair_of (v : PyVal) : option (Z * Z) :=
  match v with
  | VInt k => Some (k, k)
  | VTuple [VInt a; VInt b] => Some (a, b)
  | _ => None
  end.

Definition zeros (d0 d1 h w : Z) : Tensor4 Z :=
  replicate (Z.to_nat d0) (replicate (Z.to_nat d1)
    (replicate (Z.to_nat h) (replicate (Z.to_nat w) 0))).

(** The constructor of [timm]'s [Conv2dSame] over [torch.nn.Conv2d]: the
    argument checks of [torch], a weight of shape
    [[out_channels, in_channels // groups, kh, kw]] (zeros stand for the
    random initial values) and padding 0. *)
Definition Conv2dSame (a : ConvArgs) : Outcome (Conv2d Z) :=
  match arg_groups a, pair_of (arg_kernel_size a) with
  | VInt g, Some (kh, kw) =>
      if decide (g ≤ 0) then
        Raise (mkExn "ValueError" "groups must be a positive integer")
      else if decide (arg_in_channels a `mod` g ≠ 0) then
        Raise (mkExn "ValueError" "in_channels must be divisible by groups")
      else if decide (arg_out_channels a `mod` g ≠ 0) then
        Raise (mkExn "ValueError" "out_channels must be divisible by groups")
      else if decide (arg_in_channels a < 0 ∨ arg_out_channels a < 0) then
        Raise (mkExn "RuntimeError" "Trying to create tensor with negative dimension")
      else
        Return (mkConv2d (arg_in_channels a) (arg_out_channels a)
                  (VTuple [VInt kh; VInt kw]) (arg_stride a)
                  (VTuple [VInt 0; VInt 0]) (arg_dilation a) (VInt g)
                  (match arg_bias a with
                   | VBool true => Some (replicate (Z.to_nat (arg_out_channels a)) 0)
                   | _ => None
                   end)
                  (mkParameter
                     (zeros (arg_out_channels a) (arg_in_channels a `div` g) kh kw)
                     true))
  | _, _ => Raise (mkExn "TypeError" "bad argument")
  end.

(** A depthwise 3x3 convolution on [ch] channels. *)
Definition depthwise (ch strd : Z) : Conv2d Z :=
  mkConv2d ch ch (VTuple [VInt 3; VInt 3]) (VTuple [VInt strd; VInt strd])
           (VTuple [VInt 0; VInt 0]) (VTuple [VInt 1; VInt 1]) (VInt ch) None
           (mkParameter (zeros ch 1 3 3) true).

(** A pointwise 1x1 convolution. *)
Definition pointwise (cin cout : Z) : Conv2d Z :=
  mkConv2d cin cout (VTuple [VInt 1; VInt 1]) (VTuple [VInt 1; VInt 1])
           (VTuple [VInt 0; VInt 0]) (VTuple [VInt 1; VInt 1]) (VInt 1) None
           (mkParameter (zeros cout cin 1 1) true).

(** A 3-channel stem with a 1x1 kernel and two output channels. *)
Definition stem3 : Conv2d Z :=
  mkConv2d 3 2 (VTuple [VInt 1; VInt 1]) (VTuple [VInt 2; VInt 2])
           (VTuple [VInt 0; VInt 0]) (VTuple [VInt 1; VInt 1]) (VInt 1) None
           (mkParameter [ [ [[11]]; [[12]]; [[13]] ];
                          [ [[21]]; [[22]]; [[23]] ] ] true).

(** Places the modules of a list in the store, one after the other. *)
Fixpoint place (cs : list (Conv2d Z)) (h : gmap loc (Conv2d Z))
    : list loc * gmap loc (Conv2d Z) :=
  match cs with
  | [] => ([], h)
  | c :: rest =>
      let l := fresh (dom h) in
      let '(ls, h') := place rest (<[l := c]> h) in
      (l :: ls, h')
  end.

(** A model function: whatever the call, a stem and seven block groups of
    one block each, with a depthwise and a pointwise convolution; groups
    1, 2, 3 and 5 have stride 2. *)
Definition timm_model (c : ProviderCall) (h : gmap loc (Conv2d Z))
    : Outcome Backbone * gmap loc (Conv2d Z) :=
  let dws := (λ s, depthwise 2 s) <$> [1; 2; 2; 2; 1; 2; 1] in
  let '(l_stem, h) := (fresh (dom h), <[fresh (dom h) := stem3]> h) in
  let '(l_dws, h) := place dws h in
  let '(l_pws, h) := place (replicate 7 (pointwise 2 2)) h in
  (Return (mkBackbone l_stem
     (zip_with (λ dw pw, [ ({[ "conv_dw" := dw; "conv_pw" := pw ]} : Block) ])
               l_dws l_pws)), h).

Definition get_activation_block (name : string) : Outcome ActLayer :=
  Return (ActModule name).

(** Five feature maps: the input scaled by the stage number. *)
Definition features (x : Tensor4 Z) : list (Tensor4 Z) :=
  (λ k, fmap (M := list) (fmap (M := list) (fmap (M := list)
          (fmap (M := list) (Z.mul k)))) x) <$> [1; 2; 3; 4; 5].

(** The forward pass of the backbone. *)
Definition backbone_forward (b : Backbone) (h : gmap loc (Conv2d Z)) (x : Tensor4 Z)
    : Outcome (list (Tensor4 Z)) :=
  Return (features x).

#[export] Instance env : Externals Z :=
  mkExternals Z Conv2dSame timm_model get_activation_block backbone_forward.

Definition empty_state : State Z := mkState ∅ [] [].

(** A store holding only the 3-channel stem, at reference 1. *)
Definition stem_state : State Z := mkState {[ 1%positive := stem3 ]} [] [].

(** A grouped convolution: 4 input channels in 2 groups, so a weight with
    2 channels per filter. *)
Definition grouped4 : Conv2d Z :=
  mkConv2d 4 2 (VTuple [VInt 1; VInt 1]) (VTuple [VInt 1; VInt 1])
           (VTuple [VInt 0; VInt 0]) (VTuple [VInt 1; VInt 1]) (VInt 2) None
           (mkParameter [ [ [[11]]; [[12]] ];
                          [ [[21]]; [[22]] ] ] true).

Definition grouped4_state : State Z := mkState {[ 1%positive := grouped4 ]} [] [].

(** A grouped convolution: 8 input channels in 4 groups, so a weight with
    2 channels per filter. *)
Definition grouped8 : Conv2d Z :=
  mkConv2d 8 4 (VTuple [VInt 1; VInt 1]) (VTuple [VInt 1; VInt 1])
           (VTuple [VInt 0; VInt 0]) (VTuple [VInt 1; VInt 1]) (VInt 4) None
           (mkParameter [ [ [[11]]; [[12]] ]; [ [[21]]; [[22]] ];
                          [ [[31]]; [[32]] ]; [ [[41]]; [[42]] ] ] true).

Definition grouped8_state : State Z := mkState {[ 1%positive := grouped8 ]} [] [].

(** The module the constructor builds for the adapter called on [c] with
    [n] channels and no keyword arguments ([c] itself if it raises). *)
Definition built (c : Conv2d Z) (n : Z) : Conv2d Z :=
  match Conv2dSame (new_conv_args c n ∅) with
  | Return nc => nc
  | Raise _ => c
  end.

(** What the model function delivers on the empty store. *)
Definition backbone : Backbone :=
  match (timm_model (class_call B0Encoder true Swish) ∅).1 with
  | Return b => b
  | Raise _ => mkBackbone 1%positive []
  end.

Definition store : gmap loc (Conv2d Z) :=
  (timm_model (class_call B0Encoder true Swish) ∅).2.

(** An encoder over that backbone, asked for stages 4 and 2. *)
Definition encoder42 : Encoder :=
  mkEncoder (EncoderModule_init [16; 24; 40; 112; 320] [2; 4; 8; 16; 32] [4; 2]) backbone.

(** A 1x1 input image with one channel. *)
Definition image : Tensor4 Z := [ [ [[1]] ] ].

(** A convolution without input channels. *)
Definition no_input : Conv2d Z :=
  mkConv2d 0 2 (VTuple [VInt 1; VInt 1]) (VTuple [VInt 1; VInt 1])
           (VTuple [VInt 0; VInt 0]) (VTuple [VInt 1; VInt 1]) (VInt 1) None
           (mkParameter [ []; [] ] true).

Definition no_input_state : State Z := mkState {[ 1%positive := no_input ]} [] [].

(** A model function whose backbone has only the first four block groups. *)
Definition timm_model_short (c : ProviderCall) (h : gmap loc (Conv2d Z))
    : Outcome Backbone * gmap loc (Conv2d Z) :=
  match timm_model c h with
  | (Return b, h') => (Return (mkBackbone (conv_stem b) (take 4 (blocks b))), h')
  | r => r
  end.

(** A model function whose block group 3 is empty. *)
Definition timm_model_gap (c : ProviderCall) (h : gmap loc (Conv2d Z))
    : Outcome Backbone * gmap loc (Conv2d Z) :=
  match timm_model c h with
  | (Return b, h') => (Return (mkBackbone (conv_stem b) (<[3%nat := []]> (blocks b))), h')
  | r => r
  end.

(** A model function that fails. *)
Definition timm_model_offline (c : ProviderCall) (h : gmap loc (Conv2d Z))
    : Outcome Backbone * gmap loc (Conv2d Z) :=
  (Raise (mkExn "RuntimeError" "no weights"), h).

(** A resolver that knows no activation. *)
Definition get_activation_block_none (name : string) : Outcome ActLayer :=
  Raise (mkExn "KeyError" name).

Definition env_short : Externals Z :=
  mkExternals Z Conv2dSame timm_model_short get_activation_block backbone_forward.
Definition env_gap : Externals Z :=
  mkExternals Z Conv2dSame timm_model_gap get_activation_block backbone_forward.
Definition env_offline : Externals Z :=
  mkExternals Z Conv2dSame timm_model_offline get_activation_block backbone_forward.
Definition env_no_act : Externals Z :=
  mkExternals Z Conv2dSame timm_model get_activation_block_none backbone_forward.

(** The backbones of the short and of the gapped model function. *)
Definition backbone_short : Backbone :=
  mkBackbone (conv_stem backbone) (take 4 (blocks backbone)).
Definition backbone_gap : Backbone :=
  mkBackbone (conv_stem backbone) (<[3%nat := []]> (blocks backbone)).


End Sample.


(** * Properties *)

(** ** Tiling and slicing *)

Section ListFacts.
Context {A : Type}.
Implicit Types (row : list A) (w : list (list A)).

Lemma tile_snoc row k : mjoin (replicate k row) ++ row = mjoin (replicate (S k) row).
Proof.
  induction k as [|k IH]; simpl.
  - by rewrite app_nil_r.
  - by rewrite <- app_assoc, IH.
Qed.

Lemma zip_with_app_map (g : list A → list A) w :
  zip_with app (g <$> w) w = (λ row, g row ++ row) <$> w.
Proof. induction w as [|row w IH]; simpl; [done | f_equal; exact IH]. Qed.

Lemma foldl_tile w k n :
  foldl (zip_with app) ((λ row, mjoin (replicate k row)) <$> w) (replicate n w)
  = (λ row, mjoin (replicate (k + n) row)) <$> w.
Proof.
  revert k. induction n as [|n IH]; intros k; cbn [replicate foldl].
  - by rewrite Nat.add_0_r.
  - rewrite (zip_with_app_map (λ row, mjoin (replicate k row))).
    rewrite (list_fmap_ext _ (λ row, mjoin (replicate (S k) row)) w).
    + rewrite IH. by rewrite Nat.add_succ_r.
    + intros _ row _. apply tile_snoc.
Qed.

Lemma length_tile row k : length (mjoin (replicate k row)) = (k * length row)%nat.
Proof.
  induction k as [|k IH]; simpl; [done |].
  rewrite length_app, IH. lia.
Qed.

Lemma take_tile row k n :
  (0 < k)%nat → (length row ≤ n)%nat →
  take (length row) (take n (mjoin (replicate k row))) = row.
Proof.
  intros Hk Hn. destruct k as [|k]; [lia |]. simpl.
  rewrite take_take, Nat.min_l by done.
  apply take_app_length.
Qed.
End ListFacts.

Lemma slice_stop_nonneg len stop : 0 ≤ stop → slice_stop len stop = Z.to_nat stop.
Proof. intros H. unfold slice_stop. case_decide; [lia | done]. Qed.

Lemma math_ceil_div_spec a b :
  0 < b → ∃ n, math_ceil_div a b = Return n ∧ b * (n - 1) < a ≤ b * n.
Proof.
  intros Hb. exists (- (- a / b)). unfold math_ceil_div.
  case_decide; [lia |]. split; [done |].
  pose proof (Z.div_mod (- a) b ltac:(lia)) as Hdm.
  pose proof (Z.mod_pos_bound (- a) b Hb) as Hr.
  nia.
Qed.

Lemma torch_cat_dim1_tile {scalar} (w : Tensor4 scalar) n :
  0 < n →
  torch_cat_dim1 (list_mul w n)
  = Return ((λ row, mjoin (replicate (Z.to_nat n) row)) <$> w).
Proof.
  intros Hn. unfold list_mul.
  destruct (Z.to_nat n) as [|k] eqn:Hk; [lia |].
  cbn [replicate torch_cat_dim1]. f_equal.
  etrans; [| exact (foldl_tile w 1 k)]. f_equal.
  rewrite <- (list_fmap_id w) at 1. apply list_fmap_ext.
  intros _ row _. simpl. by rewrite app_nil_r.
Qed.

(** Unfolds the operations of the monad. *)
Ltac run :=
  unfold mbind, M_bind, mret, M_ret, lift, raise, warnings_warn,
    assert_isinstance_Conv2d, alloc, setattr; simpl.

(** ** The channel adapter *)

Section AdapterFacts.
Context {scalar : Type} `{!Externals scalar}.
Implicit Types (s : State scalar) (c nc : Conv2d scalar) (kwargs : gmap string PyVal).

Lemma rebuilt_old s nc w' l c : heap s !! l = Some c → heap (rebuilt s nc w') !! l = Some c.
Proof.
  intros Hl. unfold rebuilt; simpl. rewrite lookup_insert_ne; [done |].
  intros <-. apply (is_fresh (dom (heap s))), elem_of_dom. eauto.
Qed.

(** C1 (as amended): for a convolution with [C > 0] input channels whose
    weight has [C] channels on its channel axis (as it has with
    [groups = 1]), a request [N > C] for which the constructor of the new
    module succeeds returns a fresh module whose weight is the original
    tiled [n] times along the channel axis, [n] the ceiling of [N / C],
    and cut to the first [N] channels: the channel axis has length
    exactly [N] and its first [C] channels are the original ones.  The
    original module stays as it was. *)
Theorem adapter_widen_tiles conv n_in mode kwargs s c nc :
  heap s !! conv = Some c →
  0 < in_channels c < n_in →
  channel_axis (data (weight c)) (in_channels c) →
  Conv2dSame (new_conv_args c n_in kwargs) = Return nc →
  ∃ n (w' : Tensor4 scalar),
    in_channels c * (n - 1) < n_in ≤ in_channels c * n ∧
    w' = (λ row, take (Z.to_nat n_in) (mjoin (replicate (Z.to_nat n) row)))
           <$> data (weight c) ∧
    make_n_channel_input_conv2d_same conv n_in mode kwargs s
      = (Return (fresh (dom (heap s))), rebuilt s nc w') ∧
    heap (rebuilt s nc w') !! conv = Some c ∧
    channel_axis w' n_in ∧
    take (Z.to_nat (in_channels c)) <$> w' = data (weight c).
Proof.
  intros Hconv [HC HN] Hax Hnew.
  destruct (math_ceil_div_spec n_in (in_channels c) HC) as (n & Hceil & Hn).
  assert (0 < n) as Hn0 by nia.
  exists n, ((λ row, take (Z.to_nat n_in) (mjoin (replicate (Z.to_nat n) row)))
               <$> data (weight c)).
  split; [done |]. split; [done |]. split; [| split; [| split]].
  - unfold make_n_channel_input_conv2d_same. run. rewrite Hconv.
    case_decide; [lia |]. rewrite Hnew. simpl.
    case_decide; [| lia]. rewrite Hceil. simpl.
    rewrite (torch_cat_dim1_tile _ n Hn0). simpl.
    unfold rebuilt. rewrite alter_insert_eq. do 5 f_equal.
    unfold slice_dim1. rewrite <- list_fmap_compose.
    apply list_fmap_ext. intros _ row _. simpl.
    by rewrite slice_stop_nonneg by lia.
  - by apply rebuilt_old.
  - unfold channel_axis in *. rewrite Forall_fmap.
    eapply Forall_impl; [exact Hax |]. intros row Hrow. simpl.
    simpl in Hrow. rewrite length_take, length_tile.
    rewrite Nat.min_l; [lia |].
    apply Nat2Z.inj_le. rewrite Nat2Z.inj_mul, !Z2Nat.id by lia. nia.
  - rewrite <- list_fmap_compose.
    rewrite <- (list_fmap_id (data (weight c))) at 2.
    apply list_fmap_ext. intros i row Hi. simpl.
    unfold channel_axis in Hax. rewrite Forall_lookup in Hax.
    specialize (Hax i row Hi). simpl in Hax.
    replace (Z.to_nat (in_channels c)) with (length row) by lia.
    apply take_tile; lia.
Qed.

(** C2 (as amended): for a convolution whose weight has [C] channels on its
    channel axis (as it has with [groups = 1]), a request [1 <= N < C] for
    which the constructor of the new module succeeds returns a fresh
    module whose weight is the first [N] channels of the original, nothing
    averaged; for [N = 1] that is channel 0 alone. *)
Theorem adapter_narrow_truncates conv n_in mode kwargs s c nc :
  heap s !! conv = Some c →
  1 ≤ n_in < in_channels c →
  channel_axis (data (weight c)) (in_channels c) →
  Conv2dSame (new_conv_args c n_in kwargs) = Return nc →
  let w' : Tensor4 scalar := take (Z.to_nat n_in) <$> data (weight c) in
  make_n_channel_input_conv2d_same conv n_in mode kwargs s
    = (Return (fresh (dom (heap s))), rebuilt s nc w') ∧
  heap (rebuilt s nc w') !! conv = Some c ∧
  channel_axis w' n_in ∧
  (n_in = 1 → w' = (λ row, option_list (head row)) <$> data (weight c)).
Proof.
  intros Hconv [HN HC] Hax Hnew w'. split; [| split; [| split]].
  - unfold make_n_channel_input_conv2d_same. run. rewrite Hconv.
    case_decide; [lia |]. rewrite Hnew. simpl.
    case_decide; [lia |]. simpl.
    unfold rebuilt. rewrite alter_insert_eq. do 5 f_equal.
    unfold slice_dim1, w'. apply list_fmap_ext. intros _ row _.
    by rewrite slice_stop_nonneg by lia.
  - by apply rebuilt_old.
  - unfold channel_axis in *. unfold w'. rewrite Forall_fmap.
    eapply Forall_impl; [exact Hax |]. intros row Hrow. simpl in *.
    rewrite length_take, Nat.min_l; lia.
  - intros ->. unfold w'. apply list_fmap_ext. intros _ row _.
    by destruct row.
Qed.

(** C3: called with the channel count the convolution already has, the
    adapter emits the warning and returns the very reference it was given;
    no module is built and the store is unchanged. *)
Theorem adapter_same_count_returns_input conv n_in mode kwargs s c :
  heap s !! conv = Some c →
  in_channels c = n_in →
  make_n_channel_input_conv2d_same conv n_in mode kwargs s
    = (Return conv,
       mkState (heap s) (warnings s ++ ["make_n_channel_input call is spurious"])
               (provider_calls s)).
Proof.
  intros Hconv HC. unfold make_n_channel_input_conv2d_same. run.
  rewrite Hconv. by case_decide.
Qed.

(** C4 (as amended): the adapter has no range check of its own.  For a
    request [N < 1] different from the channel count of the convolution it
    calls the constructor with [in_channels = N]: the exception of the
    constructor, if any, is what the adapter raises; if the constructor
    returns a module, the adapter returns it with the weight
    [w[:, 0:N, ...]]. *)
Theorem adapter_no_range_check conv n_in mode kwargs s c :
  heap s !! conv = Some c →
  n_in < 1 →
  0 ≤ in_channels c →
  in_channels c ≠ n_in →
  make_n_channel_input_conv2d_same conv n_in mode kwargs s
    = match Conv2dSame (new_conv_args c n_in kwargs) with
      | Raise e => (Raise e, s)
      | Return nc =>
          (Return (fresh (dom (heap s))),
           rebuilt s nc (slice_dim1 (data (weight c)) n_in))
      end.
Proof.
  intros Hconv HN HC Hne. unfold make_n_channel_input_conv2d_same. run.
  rewrite Hconv. case_decide; [lia |].
  destruct (Conv2dSame _) as [e | nc]; simpl; [done |].
  case_decide; [lia |]. simpl.
  unfold rebuilt. by rewrite alter_insert_eq.
Qed.

(** C10: [mode] is never read: the adapter and [change_input_channels]
    give the same outcome and the same final state for any two values of
    it. *)
Theorem mode_is_never_read conv (self : Encoder) n_in kwargs (mode1 mode2 : PyVal) s :
  make_n_channel_input_conv2d_same conv n_in mode1 kwargs s
    = make_n_channel_input_conv2d_same conv n_in mode2 kwargs s
  ∧ change_input_channels self n_in mode1 kwargs s
    = change_input_channels self n_in mode2 kwargs s.
Proof. split; reflexivity. Qed.
End AdapterFacts.

(** ** The encoders *)

Section EncoderFacts.
Context {scalar : Type} `{!Externals scalar}.
Implicit Types (s : State scalar) (h : gmap loc (Conv2d scalar)) (bb : Backbone).

Lemma resolve_act_layer_run act act' s :
  act_resolves act act' → resolve_act_layer act s = (Return act', s).
Proof.
  unfold act_resolves, resolve_act_layer. destruct act; run.
  - by intros ->.
  - by intros ->.
Qed.

Lemma blocks_conv_dw_run bb i j l s :
  dw_at bb i j = Some l → blocks_conv_dw bb i j s = (Return l, s).
Proof.
  unfold dw_at, blocks_conv_dw. intros Hdw.
  destruct (blocks bb !! i) as [group|]; simpl in Hdw; [| done].
  destruct (group !! j) as [block|]; simpl in Hdw; [| done].
  by rewrite Hdw.
Qed.

Lemma call_model_run c s bb h :
  timm_model c (heap s) = (Return bb, h) →
  call_model c s = (Return bb, mkState h (warnings s) (provider_calls s ++ [c])).
Proof. unfold call_model. by intros ->. Qed.

(** The constructor with [no_stride=True], when the provider delivers a
    backbone that has the two addressed convolutions. *)
Lemma init_no_stride fn rate chs p layers act act' s bb h l5 l3 :
  act_resolves act act' →
  timm_model (mkProviderCall fn p true act' rate) (heap s) = (Return bb, h) →
  dw_at bb 5 0 = Some l5 →
  dw_at bb 3 0 = Some l3 →
  EfficientNetEncoder_init fn rate chs p layers act true s
  = (Return (mkEncoder (mkEncoderModule chs [2; 4; 8; 8; 8] layers) bb),
     mkState (no_stride_store l5 l3 h) (warnings s)
             (provider_calls s ++ [mkProviderCall fn p true act' rate])).
Proof.
  intros Hact Hprov H5 H3. unfold EfficientNetEncoder_init.
  unfold mbind at 1, M_bind at 1. rewrite (resolve_act_layer_run _ _ _ Hact).
  unfold mbind at 1, M_bind at 1. rewrite (call_model_run _ _ _ _ Hprov).
  unfold mbind at 1, M_bind at 1.
  unfold mbind at 1, M_bind at 1. rewrite (blocks_conv_dw_run _ _ _ _ _ H5).
  unfold mbind at 1, M_bind at 1. unfold setattr at 1.
  unfold mbind at 1, M_bind at 1. rewrite (blocks_conv_dw_run _ _ _ _ _ H5).
  unfold mbind at 1, M_bind at 1. unfold setattr at 1.
  unfold mbind at 1, M_bind at 1. rewrite (blocks_conv_dw_run _ _ _ _ _ H3).
  unfold mbind at 1, M_bind at 1. unfold setattr at 1.
  unfold mbind at 1, M_bind at 1. rewrite (blocks_conv_dw_run _ _ _ _ _ H3).
  reflexivity.
Qed.

(** The constructor with [no_stride=False]. *)
Lemma init_default fn rate chs p layers act act' s bb h :
  act_resolves act act' →
  timm_model (mkProviderCall fn p true act' rate) (heap s) = (Return bb, h) →
  EfficientNetEncoder_init fn rate chs p layers act false s
  = (Return (mkEncoder (mkEncoderModule chs [2; 4; 8; 16; 32] layers) bb),
     mkState h (warnings s)
             (provider_calls s ++ [mkProviderCall fn p true act' rate])).
Proof.
  intros Hact Hprov. unfold EfficientNetEncoder_init.
  unfold mbind at 1, M_bind at 1. rewrite (resolve_act_layer_run _ _ _ Hact).
  unfold mbind at 1, M_bind at 1. rewrite (call_model_run _ _ _ _ Hprov).
  reflexivity.
Qed.

(** Looking the convolution up leaves the state as it is. *)
Lemma blocks_conv_dw_state bb i j s : (blocks_conv_dw bb i j s).2 = s.
Proof. unfold blocks_conv_dw, raise. repeat case_match; done. Qed.

Ltac step_dw :=
  match goal with
  | |- context [blocks_conv_dw ?b ?i ?j ?st] =>
      let E := fresh "E" in
      pose proof (blocks_conv_dw_state b i j st) as E;
      destruct (blocks_conv_dw b i j st) as [[?|?] ?];
      simpl in E; subst; simpl; try done
  end.

(** Whatever the constructor returns carries the stride table of its
    [no_stride] branch. *)
Lemma init_returns_strides fn rate chs p layers act ns s enc s' :
  EfficientNetEncoder_init fn rate chs p layers act ns s = (Return enc, s') →
  strides (base enc) = if ns then [2; 4; 8; 8; 8] else [2; 4; 8; 16; 32].
Proof.
  unfold EfficientNetEncoder_init, call_model. run.
  destruct (resolve_act_layer act s) as [[e | a] s1]; [done |].
  destruct (timm_model _ _) as [[e | bb] h]; [done |].
  destruct ns; simpl; [| by intros [= <- _]].
  repeat step_dw. by intros [= <- _].
Qed.

(** With a resolvable activation the constructor calls the provider
    exactly once, whatever happens afterwards. *)
Lemma init_records_call fn rate chs p layers act act' ns s :
  act_resolves act act' →
  provider_calls (EfficientNetEncoder_init fn rate chs p layers act ns s).2
  = provider_calls s ++ [mkProviderCall fn p true act' rate].
Proof.
  intros Hact. unfold EfficientNetEncoder_init.
  unfold mbind at 1, M_bind at 1. rewrite (resolve_act_layer_run _ _ _ Hact).
  unfold call_model. run.
  destruct (timm_model _ _) as [[e | bb] h]; [done |].
  destruct ns; simpl; [| done].
  repeat step_dw.
Qed.

(** The eight EfficientNet classes run the shared constructor body. *)
Lemma construct_efficientnet cls p layers act ns :
  cls ≠ MixNetXLEncoder →
  ∃ chs, construct cls p layers act ns
         = EfficientNetEncoder_init (class_model_fn cls) (class_drop_path_rate cls)
             chs p layers act (default false ns).
Proof. destruct cls; try done; intros _; eexists; reflexivity. Qed.

Lemma no_stride_store_lookup l5 l3 h l :
  no_stride_store l5 l3 h !! l
  = if decide (l = l5 ∨ l = l3)
    then (λ c, set_dilation (VTuple [VInt 2; VInt 2])
                 (set_stride (VTuple [VInt 1; VInt 1]) c)) <$> h !! l
    else h !! l.
Proof.
  unfold no_stride_store.
  destruct (decide (l = l3)) as [H3 | H3], (decide (l = l5)) as [H5 | H5];
    [rewrite decide_True by auto | rewrite decide_True by auto
    | rewrite decide_True by auto | rewrite decide_False by tauto].
  - rewrite H3, <- H5, H3, !lookup_alter_eq. by destruct (h !! l3) as [[]|].
  - rewrite H3, !lookup_alter_eq, !lookup_alter_ne by congruence.
    by destruct (h !! l3) as [[]|].
  - rewrite H5, !(lookup_alter_ne _ _ l3) by congruence.
    rewrite !lookup_alter_eq. by destruct (h !! l5) as [[]|].
  - by rewrite !lookup_alter_ne by done.
Qed.
End EncoderFacts.

Section EncoderClaims.
Context {scalar : Type} `{!Externals scalar}.
Implicit Types (s : State scalar) (h : gmap loc (Conv2d scalar)) (bb : Backbone).

(** C5: an EfficientNet encoder (B0 .. B7) that construction returns has
    the stride table [2,4,8,8,8] when built with [no_stride=True] and
    [2,4,8,16,32] otherwise; and construction does return one whenever the
    activation resolves and the provider delivers a backbone (that has the
    two addressed convolutions, for [no_stride=True]). *)
Theorem no_stride_stride_table cls p layers act act' s bb h :
  cls ≠ MixNetXLEncoder →
  act_resolves act act' →
  timm_model (class_call cls p act') (heap s) = (Return bb, h) →
  (∀ ns enc s',
      construct cls p layers act ns s = (Return enc, s') →
      strides (base enc)
      = if default false ns then [2; 4; 8; 8; 8] else [2; 4; 8; 16; 32])
  ∧ (∀ l5 l3,
      dw_at bb 5 0 = Some l5 → dw_at bb 3 0 = Some l3 →
      ∃ enc s',
        construct cls p layers act (Some true) s = (Return enc, s')
        ∧ strides (base enc) = [2; 4; 8; 8; 8])
  ∧ (∀ ns,
      default false ns = false →
      ∃ enc s',
        construct cls p layers act ns s = (Return enc, s')
        ∧ strides (base enc) = [2; 4; 8; 16; 32]).
Proof.
  intros Hcls Hact Hprov. split; [| split].
  - intros ns enc s' Hrun.
    destruct (construct_efficientnet cls p layers act ns Hcls) as [chs Heq].
    rewrite Heq in Hrun. by apply init_returns_strides in Hrun.
  - intros l5 l3 H5 H3.
    destruct (construct_efficientnet cls p layers act (Some true) Hcls) as [chs Heq].
    rewrite Heq. simpl.
    erewrite init_no_stride by eauto. by eexists _, _.
  - intros ns Hns.
    destruct (construct_efficientnet cls p layers act ns Hcls) as [chs Heq].
    rewrite Heq, Hns.
    erewrite init_default by eauto. by eexists _, _.
Qed.

(** C6: building an EfficientNet encoder (B0 .. B7) with [no_stride=True]
    changes, in the store the provider left, exactly the modules at
    [blocks[5][0].conv_dw] and [blocks[3][0].conv_dw]: each gets stride
    (1,1) and dilation (2,2) and keeps its other attributes; every other
    module, and the backbone structure itself, is as the provider left
    it. *)
Theorem no_stride_rewrites_two_convs cls p layers act act' s bb h l5 l3 :
  cls ≠ MixNetXLEncoder →
  act_resolves act act' →
  timm_model (class_call cls p act') (heap s) = (Return bb, h) →
  dw_at bb 5 0 = Some l5 →
  dw_at bb 3 0 = Some l3 →
  ∃ enc s',
    construct cls p layers act (Some true) s = (Return enc, s')
    ∧ encoder enc = bb
    ∧ (∀ l, l = l5 ∨ l = l3 →
         heap s' !! l
         = (λ c, mkConv2d (in_channels c) (out_channels c) (kernel_size c)
                   (VTuple [VInt 1; VInt 1]) (padding c) (VTuple [VInt 2; VInt 2])
                   (groups c) (bias c) (weight c)) <$> h !! l)
    ∧ (∀ l, l ≠ l5 → l ≠ l3 → heap s' !! l = h !! l).
Proof.
  intros Hcls Hact Hprov H5 H3.
  destruct (construct_efficientnet cls p layers act (Some true) Hcls) as [chs Heq].
  rewrite Heq. simpl. erewrite init_no_stride by eauto.
  eexists _, _. split; [done |]. split; [done |]. simpl. split.
  - intros l Hl. rewrite no_stride_store_lookup, decide_True by done.
    by destruct (h !! l) as [[]|].
  - intros l Hl5 Hl3. rewrite no_stride_store_lookup, decide_False by tauto. done.
Qed.

Lemma _take_in_range {A} (fs : list A) (layers : list Z) :
  length fs = 5%nat →
  Forall (λ i, 1 ≤ i ≤ 4) layers →
  ∃ out, _take fs layers = Return out
         ∧ Forall2 (λ i t, fs !! Z.to_nat (i - 1) = Some t) layers out.
Proof.
  intros Hlen. induction 1 as [| i layers Hi _ IH].
  - exists []. split; [done | constructor].
  - destruct IH as (out & Hout & Hsel).
    destruct (lookup_lt_is_Some_2 fs (Z.to_nat (i - 1)) ltac:(lia)) as [t Ht].
    exists (t :: out). split.
    + simpl. unfold stage_output. rewrite decide_True by done.
      by rewrite Ht, Hout.
    + by constructor.
Qed.

(** C7: when the backbone yields its five stage outputs, [forward] returns,
    for requested stages within 1..4, one output per requested stage, in
    the order of the request: the k-th result is the output at the
    (1-indexed) position the k-th request names.  For the request [4; 2]
    that is the fourth output followed by the second. *)
Theorem forward_selects_in_request_order (self : Encoder) x s fs :
  backbone_forward (encoder self) (heap s) x = Return fs →
  length fs = 5%nat →
  Forall (λ i, 1 ≤ i ≤ 4) (_layers (base self)) →
  ∃ out,
    forward self x s = (Return out, s)
    ∧ Forall2 (λ i t, fs !! Z.to_nat (i - 1) = Some t) (_layers (base self)) out
    ∧ (_layers (base self) = [4; 2] →
       ∃ f1 f2 f3 f4 f5, fs = [f1; f2; f3; f4; f5] ∧ out = [f4; f2]).
Proof.
  intros Hfw Hlen Hrange.
  destruct (_take_in_range fs _ Hlen Hrange) as (out & Hout & Hsel).
  exists out. split; [| split; [done |]].
  - unfold forward. run. by rewrite Hfw, Hout.
  - intros Hreq. rewrite Hreq in Hsel.
    destruct fs as [| f1 [| f2 [| f3 [| f4 [| f5 [| ? ?]]]]]]; try done.
    exists f1, f2, f3, f4, f5. split; [done |].
    inversion Hsel as [| ? t4 ? out' H4 Hsel']; subst.
    inversion Hsel' as [| ? t2 ? out'' H2 Hsel'']; subst.
    inversion Hsel''; subst. simpl in H4, H2. congruence.
Qed.

(** C8 (as amended): with a resolvable activation, constructing an encoder
    calls the provider exactly once, with the model function of the class
    and the drop-path rate 0.05 for B0 and B1, 0.1 for B2 and B3, 0.2 for
    B4 .. B7 and 0.2 for MixNetXL. *)
Theorem constructors_drop_path_rates cls p layers act act' ns s :
  act_resolves act act' →
  (cls = MixNetXLEncoder → ns = None) →
  ∃ call,
    provider_calls (construct cls p layers act ns s).2 = provider_calls s ++ [call]
    ∧ call = mkProviderCall (class_model_fn cls) p true act'
               match cls with
               | B0Encoder | B1Encoder => 0.05
               | B2Encoder | B3Encoder => 0.1
               | B4Encoder | B5Encoder | B6Encoder | B7Encoder => 0.2
               | MixNetXLEncoder => 0.2
               end.
Proof.
  intros Hact Hns. eexists. split; [| reflexivity].
  destruct cls; simpl;
    try (unfold B0Encoder_init, B1Encoder_init, B2Encoder_init, B3Encoder_init,
           B4Encoder_init, B5Encoder_init, B6Encoder_init, B7Encoder_init;
         by apply init_records_call).
  rewrite Hns by done. unfold MixNetXLEncoder_init.
  unfold mbind at 1, M_bind at 1. rewrite (resolve_act_layer_run _ _ _ Hact).
  unfold call_model. run. by destruct (timm_model _ _) as [[e | bb] h].
Qed.

(** C9 (as amended): the eight EfficientNet classes take a [no_stride]
    flag and, when it is set, apply the rewrite to the freshly built
    backbone and to the stride table.  [MixNetXLEncoder] has no such
    parameter: passing the flag is a [TypeError] before anything is built,
    and an encoder built without it has the default stride table and the
    backbone exactly as the provider left it. *)
Theorem no_stride_flag_by_class cls p layers act act' s bb h :
  act_resolves act act' →
  timm_model (class_call cls p act') (heap s) = (Return bb, h) →
  (cls ≠ MixNetXLEncoder →
     ∀ l5 l3, dw_at bb 5 0 = Some l5 → dw_at bb 3 0 = Some l3 →
     ∃ enc,
       construct cls p layers act (Some true) s
       = (Return enc,
          mkState (no_stride_store l5 l3 h) (warnings s)
                  (provider_calls s ++ [class_call cls p act']))
       ∧ encoder enc = bb
       ∧ strides (base enc) = [2; 4; 8; 8; 8])
  ∧ (cls = MixNetXLEncoder →
     (∀ flag, ∃ msg,
        construct cls p layers act (Some flag) s = (Raise (mkExn "TypeError" msg), s))
     ∧ ∃ enc,
         construct cls p layers act None s
         = (Return enc,
            mkState h (warnings s) (provider_calls s ++ [class_call cls p act']))
         ∧ encoder enc = bb
         ∧ strides (base enc) = [2; 4; 8; 16; 32]).
Proof.
  intros Hact Hprov. split.
  - intros Hcls l5 l3 H5 H3.
    destruct (construct_efficientnet cls p layers act (Some true) Hcls) as [chs Heq].
    rewrite Heq. simpl. erewrite init_no_stride by eauto. by eexists.
  - intros ->. split.
    + intros flag. by eexists.
    + simpl. unfold MixNetXLEncoder_init.
      unfold mbind at 1, M_bind at 1. rewrite (resolve_act_layer_run _ _ _ Hact).
      unfold mbind at 1, M_bind at 1.
      rewrite (call_model_run (mkProviderCall "mixnet_xl" p true act' 0.2) _ _ _ Hprov).
      by eexists.
Qed.
End EncoderClaims.

(** ** The statements on the concrete environment *)

Section Concrete.
Let auto : PyVal := VStr "auto".
Let adapt := make_n_channel_input_conv2d_same (Externals0 := Sample.env).
Let build := construct (Externals0 := Sample.env).

Lemma adapter_widen_tiles_witness :
  ∃ n (w' : Tensor4 Z),
    3 * (n - 1) < 5 ≤ 3 * n
    ∧ w' = (λ row, take 5 (mjoin (replicate (Z.to_nat n) row)))
             <$> data (weight Sample.stem3)
    ∧ adapt 1%positive 5 auto ∅ Sample.stem_state
      = (Return 2%positive,
         rebuilt Sample.stem_state (Sample.built Sample.stem3 5) w')
    ∧ heap (rebuilt Sample.stem_state (Sample.built Sample.stem3 5) w') !! 1%positive
      = Some Sample.stem3
    ∧ channel_axis w' 5
    ∧ take 3 <$> w' = data (weight Sample.stem3).
Proof.
  apply (adapter_widen_tiles (Externals0 := Sample.env)
           1%positive 5 auto ∅ Sample.stem_state Sample.stem3
           (Sample.built Sample.stem3 5)).
  - vm_compute; reflexivity.
  - simpl. lia.
  - repeat constructor.
  - vm_compute; reflexivity.
Defined.

(** C1, as stated, fails on a grouped convolution: 4 input channels in 2
    groups (a weight with 2 channels per filter) widened to 6 channels gets
    a weight with 4 channels, not 6. *)
Lemma adapter_widen_grouped_counterexample :
  let r := adapt 1%positive 6 auto ∅ Sample.grouped4_state in
  in_channels Sample.grouped4 = 4 ∧ 6 > 4
  ∧ r.1 = Return 2%positive
  ∧ (λ c, data (weight c)) <$> heap r.2 !! 2%positive
    = Some [ [ [[11]]; [[12]]; [[11]]; [[12]] ];
             [ [[21]]; [[22]]; [[21]]; [[22]] ] ]
  ∧ ¬ channel_axis [ [ [[11]]; [[12]]; [[11]]; [[12]] ];
                     [ [[21]]; [[22]]; [[21]]; [[22]] ] ] 6.
Proof.
  repeat split; try (vm_compute; reflexivity).
  intros Hax. apply Forall_inv in Hax. simpl in Hax. lia.
Qed.

Lemma adapter_narrow_truncates_witness :
  let w' : Tensor4 Z := take 2 <$> data (weight Sample.stem3) in
  adapt 1%positive 2 auto ∅ Sample.stem_state
    = (Return 2%positive, rebuilt Sample.stem_state (Sample.built Sample.stem3 2) w')
  ∧ heap (rebuilt Sample.stem_state (Sample.built Sample.stem3 2) w') !! 1%positive
    = Some Sample.stem3
  ∧ channel_axis w' 2
  ∧ (2 = 1 → w' = (λ row, option_list (head row)) <$> data (weight Sample.stem3)).
Proof.
  apply (adapter_narrow_truncates (Externals0 := Sample.env)
           1%positive 2 auto ∅ Sample.stem_state Sample.stem3
           (Sample.built Sample.stem3 2)).
  - vm_compute; reflexivity.
  - simpl. lia.
  - repeat constructor.
  - vm_compute; reflexivity.
Defined.

(** C2, as stated, fails on a grouped convolution: 8 input channels in 4
    groups (a weight with 2 channels per filter) narrowed to 4 channels
    keeps a weight with 2 channels, not 4. *)
Lemma adapter_narrow_grouped_counterexample :
  let r := adapt 1%positive 4 auto ∅ Sample.grouped8_state in
  in_channels Sample.grouped8 = 8 ∧ 1 ≤ 4 < 8
  ∧ r.1 = Return 2%positive
  ∧ (λ c, data (weight c)) <$> heap r.2 !! 2%positive
    = Some [ [ [[11]]; [[12]] ]; [ [[21]]; [[22]] ];
             [ [[31]]; [[32]] ]; [ [[41]]; [[42]] ] ]
  ∧ ¬ channel_axis [ [ [[11]]; [[12]] ]; [ [[21]]; [[22]] ];
                     [ [[31]]; [[32]] ]; [ [[41]]; [[42]] ] ] 4.
Proof.
  repeat split; try (vm_compute; reflexivity); try lia.
  intros Hax. apply Forall_inv in Hax. simpl in Hax. lia.
Qed.

Lemma adapter_same_count_returns_input_witness :
  adapt 1%positive 3 auto ∅ Sample.stem_state
  = (Return 1%positive,
     mkState (heap Sample.stem_state)
             (warnings Sample.stem_state ++ ["make_n_channel_input call is spurious"])
             (provider_calls Sample.stem_state)).
Proof.
  apply (adapter_same_count_returns_input (Externals0 := Sample.env)
           1%positive 3 auto ∅ Sample.stem_state Sample.stem3);
    (vm_compute; reflexivity).
Defined.

Lemma adapter_no_range_check_witness :
  adapt 1%positive (-1) auto ∅ Sample.stem_state
  = match Sample.Conv2dSame (new_conv_args Sample.stem3 (-1) ∅) with
    | Raise e => (Raise e, Sample.stem_state)
    | Return nc =>
        (Return (fresh (dom (heap Sample.stem_state))),
         rebuilt Sample.stem_state nc (slice_dim1 (data (weight Sample.stem3)) (-1)))
    end.
Proof.
  apply (adapter_no_range_check (Externals0 := Sample.env)
           1%positive (-1) auto ∅ Sample.stem_state Sample.stem3).
  - vm_compute; reflexivity.
  - lia.
  - simpl. lia.
  - simpl. lia.
Defined.

(** C4, as stated, fails: asked for 0 channels on the 3-channel stem, the
    adapter raises nothing and returns a new module, whose weight has no
    channel. *)
Lemma adapter_zero_channels_counterexample :
  let r := adapt 1%positive 0 auto ∅ Sample.stem_state in
  0 < 1
  ∧ r.1 = Return 2%positive
  ∧ (λ c, (in_channels c, data (weight c))) <$> heap r.2 !! 2%positive
    = Some (0, [ []; [] ]).
Proof. repeat split; vm_compute; reflexivity. Qed.

Lemma no_stride_stride_table_witness :
  ∃ enc s',
    build B0Encoder true [1; 2; 3; 4] Swish (Some true) Sample.empty_state
    = (Return enc, s')
    ∧ strides (base enc) = [2; 4; 8; 8; 8].
Proof.
  destruct (no_stride_stride_table (Externals0 := Sample.env)
              B0Encoder true [1; 2; 3; 4] Swish Swish Sample.empty_state
              Sample.backbone Sample.store)
    as (_ & Hon & _).
  - discriminate.
  - vm_compute; reflexivity.
  - vm_compute; reflexivity.
  - apply (Hon 7%positive 5%positive); vm_compute; reflexivity.
Defined.

Lemma no_stride_rewrites_two_convs_witness :
  ∃ enc s',
    build B4Encoder true [1; 2; 3; 4] Swish (Some true) Sample.empty_state
    = (Return enc, s')
    ∧ encoder enc = Sample.backbone
    ∧ (∀ l, l = 7%positive ∨ l = 5%positive →
         heap s' !! l
         = (λ c, mkConv2d (in_channels c) (out_channels c) (kernel_size c)
                   (VTuple [VInt 1; VInt 1]) (padding c) (VTuple [VInt 2; VInt 2])
                   (groups c) (bias c) (weight c)) <$> Sample.store !! l)
    ∧ (∀ l, l ≠ 7%positive → l ≠ 5%positive → heap s' !! l = Sample.store !! l).
Proof.
  apply (no_stride_rewrites_two_convs (Externals0 := Sample.env)
           B4Encoder true [1; 2; 3; 4] Swish Swish Sample.empty_state
           Sample.backbone Sample.store 7%positive 5%positive).
  - discriminate.
  - vm_compute; reflexivity.
  - vm_compute; reflexivity.
  - vm_compute; reflexivity.
  - vm_compute; reflexivity.
Defined.

Lemma forward_selects_in_request_order_witness :
  ∃ out,
    forward (Externals0 := Sample.env) Sample.encoder42 Sample.image
            (mkState Sample.store [] [])
    = (Return out, mkState Sample.store [] [])
    ∧ Forall2 (λ i t, Sample.features Sample.image !! Z.to_nat (i - 1) = Some t)
        [4; 2] out
    ∧ ([4; 2] = [4; 2] →
       ∃ f1 f2 f3 f4 f5,
         Sample.features Sample.image = [f1; f2; f3; f4; f5] ∧ out = [f4; f2]).
Proof.
  apply (forward_selects_in_request_order (Externals0 := Sample.env)
           Sample.encoder42 Sample.image (mkState Sample.store [] [])).
  - vm_compute; reflexivity.
  - vm_compute; reflexivity.
  - repeat constructor; simpl; lia.
Defined.

Lemma constructors_drop_path_rates_witness :
  ∃ call,
    provider_calls (build B3Encoder false [1; 2; 3; 4] (ActStr "relu") None
                      Sample.empty_state).2
    = provider_calls Sample.empty_state ++ [call]
    ∧ call = mkProviderCall "tf_efficientnet_b3_ns" false true (ActModule "relu") 0.1.
Proof.
  apply (constructors_drop_path_rates (Externals0 := Sample.env)
           B3Encoder false [1; 2; 3; 4] (ActStr "relu") (ActModule "relu") None
           Sample.empty_state).
  - vm_compute; reflexivity.
  - discriminate.
Defined.

(** C8, as stated, fails: [B1Encoder] passes 0.05 where the claim has 0.1,
    and [B3Encoder] passes 0.1 where the claim has 0.2. *)
Lemma drop_path_rates_counterexample :
  drop_path_rate <$> provider_calls
     (build B1Encoder true [1; 2; 3; 4] Swish None Sample.empty_state).2 = [0.05%Q]
  ∧ ¬ (0.05 == 0.1)%Q
  ∧ drop_path_rate <$> provider_calls
     (build B3Encoder true [1; 2; 3; 4] Swish None Sample.empty_state).2 = [0.1%Q]
  ∧ ¬ (0.1 == 0.2)%Q.
Proof. repeat split; try (vm_compute; reflexivity); intros Heq; discriminate Heq. Qed.

Lemma no_stride_flag_by_class_witness :
  (∀ flag, ∃ msg,
      build MixNetXLEncoder true [1; 2; 3; 4] Swish (Some flag) Sample.empty_state
      = (Raise (mkExn "TypeError" msg), Sample.empty_state))
  ∧ ∃ enc,
      build MixNetXLEncoder true [1; 2; 3; 4] Swish None Sample.empty_state
      = (Return enc,
         mkState Sample.store (warnings Sample.empty_state)
                 (provider_calls Sample.empty_state
                    ++ [class_call MixNetXLEncoder true Swish]))
      ∧ encoder enc = Sample.backbone
      ∧ strides (base enc) = [2; 4; 8; 16; 32].
Proof.
  destruct (no_stride_flag_by_class (Externals0 := Sample.env)
              MixNetXLEncoder true [1; 2; 3; 4] Swish Swish Sample.empty_state
              Sample.backbone Sample.store)
    as [_ Hmix].
  - vm_compute; reflexivity.
  - vm_compute; reflexivity.
  - apply Hmix. reflexivity.
Defined.

(** C9, as stated, fails: [MixNetXLEncoder] cannot be constructed with a
    [no_stride] flag; the call raises and builds nothing. *)
Lemma mixnet_no_stride_counterexample :
  build MixNetXLEncoder true [1; 2; 3; 4] Swish (Some true) Sample.empty_state
  = (Raise (mkExn "TypeError"
              "__init__() got an unexpected keyword argument 'no_stride'"),
     Sample.empty_state).
Proof. vm_compute. reflexivity. Qed.
End Concrete.

(** * Further properties of the code *)

(** ** More on tiling *)

Section TileFacts.
Context {A : Type}.
Implicit Types (row : list A).

Lemma lookup_tile row n k :
  (k < n * length row)%nat →
  mjoin (replicate n row) !! k = row !! (k `mod` length row)%nat.
Proof.
  revert k. induction n as [| n IH]; intros k Hk; [lia |].
  assert (0 < length row)%nat as Hpos by lia.
  cbn [replicate mjoin list_join].
  destruct (decide (k < length row)%nat) as [Hlt | Hge].
  - rewrite lookup_app_l by done. by rewrite Nat.mod_small.
  - rewrite lookup_app_r by lia. rewrite IH by lia. f_equal.
    replace k with ((k - length row) + 1 * length row)%nat at 2 by lia.
    by rewrite Nat.Div0.mod_add.
Qed.

Lemma take_tile_exact row n : take (n * length row) (mjoin (replicate n row))
                              = mjoin (replicate n row).
Proof. apply take_ge. by rewrite length_tile. Qed.
End TileFacts.

Lemma ceil_div_exact m b : 0 < b → - (- (m * b) / b) = m.
Proof.
  intros Hb. rewrite <- Z.mul_opp_l, Z.div_mul by lia. lia.
Qed.

Lemma ceil_div_bounds a b : 0 < b → b * (- (- a / b) - 1) < a ≤ b * - (- a / b).
Proof.
  intros Hb.
  pose proof (Z.div_mod (- a) b ltac:(lia)).
  pose proof (Z.mod_pos_bound (- a) b Hb). nia.
Qed.

(** ** The adapter, beyond the stated cases *)

Section AdapterMore.
Context {scalar : Type} `{!Externals scalar}.
Implicit Types (s : State scalar) (c nc : Conv2d scalar) (kwargs : gmap string PyVal).

(** What a call returns when the convolution has at least one input channel,
    the requested count differs and the constructor succeeds. *)
Lemma adapter_run conv n_in mode kwargs s c nc :
  heap s !! conv = Some c →
  0 < in_channels c →
  in_channels c ≠ n_in →
  Conv2dSame (new_conv_args c n_in kwargs) = Return nc →
  make_n_channel_input_conv2d_same conv n_in mode kwargs s
  = (Return (fresh (dom (heap s))), rebuilt s nc (adapted_weight c n_in)).
Proof.
  intros Hconv HC Hne Hnew.
  unfold make_n_channel_input_conv2d_same, adapted_weight. run. rewrite Hconv.
  case_decide; [lia |]. rewrite Hnew. simpl.
  case_decide; simpl.
  - unfold math_ceil_div. case_decide; [lia |]. simpl.
    pose proof (ceil_div_bounds n_in (in_channels c) HC).
    rewrite (torch_cat_dim1_tile _ (- (- n_in / in_channels c))) by nia. simpl.
    unfold rebuilt. rewrite alter_insert_eq. do 5 f_equal.
    unfold slice_dim1. rewrite <- list_fmap_compose.
    apply list_fmap_ext. intros _ row _. simpl.
    by rewrite slice_stop_nonneg by lia.
  - unfold rebuilt. by rewrite alter_insert_eq.
Qed.

(** X1: when the constructor of the new module raises, the adapter raises
    the same exception and leaves the state as it was: nothing is built and
    no warning is given. *)
Theorem adapter_constructor_failure conv n_in mode kwargs s c e :
  heap s !! conv = Some c →
  in_channels c ≠ n_in →
  Conv2dSame (new_conv_args c n_in kwargs) = Raise e →
  make_n_channel_input_conv2d_same conv n_in mode kwargs s = (Raise e, s).
Proof.
  intros Hconv Hne Hnew. unfold make_n_channel_input_conv2d_same. run.
  rewrite Hconv. case_decide; [done |]. by rewrite Hnew.
Qed.

(** X2: for a convolution with at least one input channel and a different
    requested count, the adapter returns whenever the constructor does.  The
    returned module is the constructor's with only the weight replaced: the
    weight is trainable and has as many filters as the original, and the
    bias is the constructor's, not a copy of the original's. *)
Theorem adapter_returns_constructed_module conv n_in mode kwargs s c nc :
  heap s !! conv = Some c →
  0 < in_channels c →
  in_channels c ≠ n_in →
  Conv2dSame (new_conv_args c n_in kwargs) = Return nc →
  ∃ l s' c',
    make_n_channel_input_conv2d_same conv n_in mode kwargs s = (Return l, s')
    ∧ l ≠ conv
    ∧ heap s' !! l = Some c'
    ∧ c' = mkConv2d (in_channels nc) (out_channels nc) (kernel_size nc) (stride nc)
             (padding nc) (dilation nc) (groups nc) (bias nc)
             (mkParameter (adapted_weight c n_in) true)
    ∧ length (data (weight c')) = length (data (weight c)).
Proof.
  intros Hconv HC Hne Hnew.
  eexists _, _, _. split; [by apply adapter_run |].
  split; [| split; [| split]].
  - intros Heq. apply (is_fresh (dom (heap s))). rewrite Heq. apply elem_of_dom. eauto.
  - unfold rebuilt; simpl. apply lookup_insert_eq.
  - reflexivity.
  - simpl. unfold adapted_weight, slice_dim1. case_decide; by rewrite length_fmap.
Qed.

(** X3: whatever the outcome, every module that was in the store before the
    call is still there, unchanged: the adapter never mutates an existing
    module, the one it is given included. *)
Theorem adapter_preserves_store conv n_in mode kwargs s l c0 :
  heap s !! l = Some c0 →
  heap (make_n_channel_input_conv2d_same conv n_in mode kwargs s).2 !! l = Some c0.
Proof.
  intros Hl.
  assert (fresh (dom (heap s)) ≠ l) as Hfresh.
  { intros Heq. apply (is_fresh (dom (heap s))). rewrite Heq. apply elem_of_dom. eauto. }
  unfold make_n_channel_input_conv2d_same. run.
  destruct (heap s !! conv) as [c |]; [| done].
  case_decide; [done |].
  destruct (Conv2dSame _) as [e | nc]; [done |]. simpl.
  case_decide; simpl.
  - destruct (math_ceil_div _ _) as [e | n]; simpl;
      [by rewrite lookup_insert_ne |].
    destruct (torch_cat_dim1 _) as [e | w]; simpl;
      [by rewrite lookup_insert_ne |].
    by rewrite lookup_alter_ne, lookup_insert_ne.
  - by rewrite lookup_alter_ne, lookup_insert_ne.
Qed.



(** X6: the channel axis of the new weight in general, grouped
    convolutions included: for a weight with [cw] channels per filter, a
    request [N > C] gives [min N (n * cw)] channels, [n] the ceiling of
    [N / C], and a request [0 <= N < C] gives [min N cw]. *)
Theorem adapter_channel_axis conv n_in mode kwargs s c nc cw :
  heap s !! conv = Some c →
  0 < in_channels c →
  in_channels c ≠ n_in →
  0 ≤ n_in →
  Conv2dSame (new_conv_args c n_in kwargs) = Return nc →
  channel_axis (data (weight c)) cw →
  make_n_channel_input_conv2d_same conv n_in mode kwargs s
  = (Return (fresh (dom (heap s))), rebuilt s nc (adapted_weight c n_in))
  ∧ channel_axis (adapted_weight c n_in)
      (if decide (n_in > in_channels c)
       then Z.min n_in (- (- n_in / in_channels c) * cw)
       else Z.min n_in cw).
Proof.
  intros Hconv HC Hne HN Hnew Hax. split; [by apply adapter_run |].
  pose proof (ceil_div_bounds n_in (in_channels c) HC) as Hceil.
  unfold channel_axis, adapted_weight in *. case_decide.
  - rewrite Forall_fmap. eapply Forall_impl; [exact Hax |].
    intros row Hrow. simpl in *. rewrite length_take, length_tile.
    rewrite Nat2Z.inj_min, Nat2Z.inj_mul, !Z2Nat.id by nia. by rewrite Hrow.
  - unfold slice_dim1. rewrite Forall_fmap. eapply Forall_impl; [exact Hax |].
    intros row Hrow. simpl in *. rewrite slice_stop_nonneg, length_take by done.
    rewrite Nat2Z.inj_min, Z2Nat.id by lia. by rewrite Hrow.
Qed.

(** X7: widening reuses the channels cyclically: in the new weight of a
    convolution whose weight has [C >= 1] channels, channel [k] of every
    filter, for [0 <= k < N], is channel [k mod C] of the original filter. *)
Theorem adapter_widen_is_cyclic conv n_in mode kwargs s c nc :
  heap s !! conv = Some c →
  0 < in_channels c < n_in →
  channel_axis (data (weight c)) (in_channels c) →
  Conv2dSame (new_conv_args c n_in kwargs) = Return nc →
  make_n_channel_input_conv2d_same conv n_in mode kwargs s
  = (Return (fresh (dom (heap s))), rebuilt s nc (adapted_weight c n_in))
  ∧ ∀ o row row' k,
      data (weight c) !! o = Some row →
      adapted_weight c n_in !! o = Some row' →
      0 ≤ k < n_in →
      row' !! Z.to_nat k = row !! Z.to_nat (k `mod` in_channels c).
Proof.
  intros Hconv [HC HN] Hax Hnew. split; [apply adapter_run; (done || lia) |].
  intros o row row' k Hrow Hrow' Hk.
  pose proof (ceil_div_bounds n_in (in_channels c) HC) as Hceil.
  unfold adapted_weight in Hrow'. rewrite decide_True in Hrow' by lia.
  rewrite list_lookup_fmap, Hrow in Hrow'. injection Hrow' as <-.
  unfold channel_axis in Hax. rewrite Forall_lookup in Hax.
  specialize (Hax o row Hrow). simpl in Hax.
  rewrite lookup_take_lt by lia.
  rewrite lookup_tile by nia. f_equal.
  rewrite <- Hax, <- (Nat2Z.id (_ `mod` _)%nat), Nat2Z.inj_mod, Z2Nat.id by lia.
  done.
Qed.

(** X8: when the requested count is an exact multiple [m * C] of the
    channels of a convolution whose weight has [C >= 1] channels, nothing is
    cut: every filter of the new weight is exactly [m] copies of the
    original filter. *)
Theorem adapter_widen_exact_multiple conv m mode kwargs s c nc :
  heap s !! conv = Some c →
  0 < in_channels c →
  2 ≤ m →
  channel_axis (data (weight c)) (in_channels c) →
  Conv2dSame (new_conv_args c (m * in_channels c) kwargs) = Return nc →
  make_n_channel_input_conv2d_same conv (m * in_channels c) mode kwargs s
  = (Return (fresh (dom (heap s))),
     rebuilt s nc ((λ row, mjoin (replicate (Z.to_nat m) row)) <$> data (weight c))).
Proof.
  intros Hconv HC Hm Hax Hnew.
  rewrite (adapter_run _ _ _ _ _ c nc) by (done || nia). do 2 f_equal.
  unfold adapted_weight. rewrite decide_True by nia.
  rewrite ceil_div_exact by done.
  apply list_fmap_ext. intros o row Hrow.
  unfold channel_axis in Hax. rewrite Forall_lookup in Hax.
  specialize (Hax o row Hrow). simpl in Hax.
  replace (Z.to_nat (m * in_channels c)) with (Z.to_nat m * length row)%nat by nia.
  apply take_tile_exact.
Qed.

(** X9: a convolution without input channels cannot be widened: once the
    constructor has returned, the division by its channel count raises
    [ZeroDivisionError]. *)
Theorem adapter_zero_division conv n_in mode kwargs s c nc :
  heap s !! conv = Some c →
  in_channels c = 0 →
  0 < n_in →
  Conv2dSame (new_conv_args c n_in kwargs) = Return nc →
  (make_n_channel_input_conv2d_same conv n_in mode kwargs s).1
  = Raise (mkExn "ZeroDivisionError" "float division by zero").
Proof.
  intros Hconv HC HN Hnew. unfold make_n_channel_input_conv2d_same. run.
  rewrite Hconv. case_decide; [lia |]. rewrite Hnew. simpl.
  case_decide; [| lia]. unfold math_ceil_div. by rewrite decide_True.
Qed.
End AdapterMore.

(** ** Changing the channel count twice *)

Section RoundTrips.
Context {scalar : Type} `{!Externals scalar}.
Implicit Types (s : State scalar) (c nc : Conv2d scalar) (kwargs : gmap string PyVal).

Lemma rebuilt_new s nc (w' : Tensor4 scalar) :
  heap (rebuilt s nc w') !! fresh (dom (heap s))
  = Some (set_weight (mkParameter w' true) nc).
Proof. unfold rebuilt; simpl. apply lookup_insert_eq. Qed.

Lemma fresh_not_old s l c : heap s !! l = Some c → fresh (dom (heap s)) ≠ l.
Proof.
  intros Hl Heq. apply (is_fresh (dom (heap s))). rewrite Heq. apply elem_of_dom. eauto.
Qed.

(** X10: widening a convolution whose weight has [C >= 1] channels to
    [N > C] channels and then adapting the result back to [C] channels gives
    a third module whose weight is the original weight, channel for
    channel. *)
Theorem widen_then_narrow_restores_weight conv n_in mode kw1 kw2 s c nc1 nc2 :
  heap s !! conv = Some c →
  0 < in_channels c < n_in →
  channel_axis (data (weight c)) (in_channels c) →
  Conv2dSame (new_conv_args c n_in kw1) = Return nc1 →
  in_channels nc1 = n_in →
  Conv2dSame (new_conv_args nc1 (in_channels c) kw2) = Return nc2 →
  ∃ l1 s1 l2 s2,
    make_n_channel_input_conv2d_same conv n_in mode kw1 s = (Return l1, s1)
    ∧ make_n_channel_input_conv2d_same l1 (in_channels c) mode kw2 s1 = (Return l2, s2)
    ∧ l2 ≠ conv ∧ l2 ≠ l1
    ∧ (λ c', data (weight c')) <$> heap s2 !! l2 = Some (data (weight c)).
Proof.
  intros Hconv [HC HN] Hax Hnew1 Hin1 Hnew2.
  pose proof (adapter_run conv n_in mode kw1 s c nc1 Hconv HC ltac:(lia) Hnew1) as Hrun1.
  set (s1 := rebuilt s nc1 (adapted_weight c n_in)) in *.
  set (c1 := set_weight (mkParameter (adapted_weight c n_in) true) nc1).
  assert (heap s1 !! fresh (dom (heap s)) = Some c1) as Hl1 by apply rebuilt_new.
  pose proof (adapter_run (fresh (dom (heap s))) (in_channels c) mode kw2 s1 c1 nc2
                Hl1 ltac:(simpl; lia) ltac:(simpl; lia) Hnew2) as Hrun2.
  eexists _, _, _, _. split; [exact Hrun1 |]. split; [exact Hrun2 |].
  split; [| split].
  - apply (fresh_not_old s1 conv c). by apply rebuilt_old.
  - by apply (fresh_not_old s1 _ c1).
  - rewrite rebuilt_new. simpl. f_equal.
    unfold adapted_weight at 1. simpl. rewrite decide_False by lia.
    unfold adapted_weight. rewrite decide_True by lia.
    unfold slice_dim1. rewrite <- list_fmap_compose.
    rewrite <- (list_fmap_id (data (weight c))) at 2.
    apply list_fmap_ext. intros o row Hrow. simpl.
    unfold channel_axis in Hax. rewrite Forall_lookup in Hax.
    specialize (Hax o row Hrow). simpl in Hax.
    pose proof (ceil_div_bounds n_in (in_channels c) HC) as Hceil.
    rewrite slice_stop_nonneg by lia.
    replace (Z.to_nat (in_channels c)) with (length row) by lia.
    apply take_tile; [nia | lia].
Qed.



End RoundTrips.

(** ** The constructors, when something is missing *)

Section ConstructorFailures.
Context {scalar : Type} `{!Externals scalar}.
Implicit Types (s : State scalar) (h : gmap loc (Conv2d scalar)) (bb : Backbone).

Lemma blocks_conv_dw_fails bb i j :
  dw_at bb i j = None →
  ∃ e, is_lookup_error e ∧ ∀ s, blocks_conv_dw bb i j s = (Raise e, s).
Proof.
  unfold dw_at, blocks_conv_dw, is_lookup_error, raise. intros Hdw.
  destruct (blocks bb !! i) as [group |]; simpl in Hdw;
    [| exists (mkExn "IndexError" "index out of range"); split; [by left | done]].
  destruct (group !! j) as [block |]; simpl in Hdw;
    [| exists (mkExn "IndexError" "index out of range"); split; [by left | done]].
  rewrite Hdw. exists (mkExn "AttributeError" "conv_dw"). split; [by right | done].
Qed.

(** X14: when [act_layer] is a name that [get_activation_block] does not
    resolve, the constructor raises its exception and nothing else happens:
    the provider is not called and the store is untouched. *)
Theorem construct_unresolved_activation cls p layers name ns s e :
  get_activation_block name = Raise e →
  (cls = MixNetXLEncoder → ns = None) →
  construct cls p layers (ActStr name) ns s = (Raise e, s).
Proof.
  intros Hact Hns.
  destruct cls; simpl;
    try (unfold B0Encoder_init, B1Encoder_init, B2Encoder_init, B3Encoder_init,
           B4Encoder_init, B5Encoder_init, B6Encoder_init, B7Encoder_init,
           EfficientNetEncoder_init; run; by rewrite Hact).
  rewrite Hns by done. unfold MixNetXLEncoder_init. run. by rewrite Hact.
Qed.

(** X15: when the provider fails, the constructor raises the provider's
    exception; the one call to the provider has been made, and no
    convolution is rewritten whatever the flag. *)
Theorem construct_provider_failure cls p layers act act' ns s e h :
  act_resolves act act' →
  (cls = MixNetXLEncoder → ns = None) →
  timm_model (class_call cls p act') (heap s) = (Raise e, h) →
  construct cls p layers act ns s
  = (Raise e, mkState h (warnings s) (provider_calls s ++ [class_call cls p act'])).
Proof.
  intros Hact Hns Hprov.
  assert (∀ c, timm_model c (heap s) = (Raise e, h) →
               call_model c s
               = (Raise e, mkState h (warnings s) (provider_calls s ++ [c]))) as Hcall.
  { intros c Hc. unfold call_model. by rewrite Hc. }
  unfold class_call in *.
  assert (cls = MixNetXLEncoder ∨ cls ≠ MixNetXLEncoder) as [-> | Hcls]
    by (destruct cls; (by left) || (by right)).
  - rewrite Hns by done. simpl in *. unfold MixNetXLEncoder_init.
    unfold mbind at 1, M_bind at 1. rewrite (resolve_act_layer_run _ _ _ Hact).
    unfold mbind at 1, M_bind at 1. by rewrite (Hcall _ Hprov).
  - destruct (construct_efficientnet cls p layers act ns Hcls) as [chs Heq].
    rewrite Heq. unfold EfficientNetEncoder_init.
    unfold mbind at 1, M_bind at 1. rewrite (resolve_act_layer_run _ _ _ Hact).
    unfold mbind at 1, M_bind at 1. by rewrite (Hcall _ Hprov).
Qed.

(** X16: without the flag ([no_stride] false or not given) an EfficientNet
    constructor never addresses the block groups: whatever backbone the
    provider delivers is accepted, and the store is left exactly as the
    provider left it. *)
Theorem construct_without_flag_keeps_backbone cls p layers act act' ns s bb h :
  cls ≠ MixNetXLEncoder →
  act_resolves act act' →
  default false ns = false →
  timm_model (class_call cls p act') (heap s) = (Return bb, h) →
  ∃ enc,
    construct cls p layers act ns s
    = (Return enc,
       mkState h (warnings s) (provider_calls s ++ [class_call cls p act']))
    ∧ encoder enc = bb
    ∧ _layers (base enc) = layers.
Proof.
  intros Hcls Hact Hns Hprov.
  destruct (construct_efficientnet cls p layers act ns Hcls) as [chs Heq].
  rewrite Heq, Hns. erewrite init_default by eauto. by eexists.
Qed.

(** X17: with [no_stride=True] and a backbone that has no
    [blocks[5][0].conv_dw], an EfficientNet constructor raises the lookup's
    [IndexError] or [AttributeError]; no convolution has been rewritten. *)
Theorem construct_no_stride_missing_group5 cls p layers act act' s bb h :
  cls ≠ MixNetXLEncoder →
  act_resolves act act' →
  timm_model (class_call cls p act') (heap s) = (Return bb, h) →
  dw_at bb 5 0 = None →
  ∃ e,
    is_lookup_error e
    ∧ construct cls p layers act (Some true) s
      = (Raise e,
         mkState h (warnings s) (provider_calls s ++ [class_call cls p act'])).
Proof.
  intros Hcls Hact Hprov H5.
  destruct (blocks_conv_dw_fails bb 5 0 H5) as (e & He & Hfail).
  exists e. split; [done |].
  destruct (construct_efficientnet cls p layers act (Some true) Hcls) as [chs Heq].
  rewrite Heq. simpl. unfold EfficientNetEncoder_init.
  unfold mbind at 1, M_bind at 1. rewrite (resolve_act_layer_run _ _ _ Hact).
  unfold mbind at 1, M_bind at 1. unfold class_call in *.
  rewrite (call_model_run _ _ _ _ Hprov).
  unfold mbind at 1, M_bind at 1.
  unfold mbind at 1, M_bind at 1. by rewrite Hfail.
Qed.

(** X18: the rewrite is not all-or-nothing: with [no_stride=True] and a
    backbone that has [blocks[5][0].conv_dw] but no [blocks[3][0].conv_dw],
    an EfficientNet constructor raises the lookup's exception after the
    convolution of group 5 has already been given stride (1,1) and dilation
    (2,2). *)
Theorem construct_no_stride_missing_group3 cls p layers act act' s bb h l5 :
  cls ≠ MixNetXLEncoder →
  act_resolves act act' →
  timm_model (class_call cls p act') (heap s) = (Return bb, h) →
  dw_at bb 5 0 = Some l5 →
  dw_at bb 3 0 = None →
  ∃ e,
    is_lookup_error e
    ∧ construct cls p layers act (Some true) s
      = (Raise e,
         mkState (alter (set_dilation (VTuple [VInt 2; VInt 2])) l5
                    (alter (set_stride (VTuple [VInt 1; VInt 1])) l5 h))
                 (warnings s) (provider_calls s ++ [class_call cls p act'])).
Proof.
  intros Hcls Hact Hprov H5 H3.
  destruct (blocks_conv_dw_fails bb 3 0 H3) as (e & He & Hfail).
  exists e. split; [done |].
  destruct (construct_efficientnet cls p layers act (Some true) Hcls) as [chs Heq].
  rewrite Heq. simpl. unfold EfficientNetEncoder_init.
  unfold mbind at 1, M_bind at 1. rewrite (resolve_act_layer_run _ _ _ Hact).
  unfold mbind at 1, M_bind at 1. unfold class_call in *.
  rewrite (call_model_run _ _ _ _ Hprov).
  unfold mbind at 1, M_bind at 1.
  unfold mbind at 1, M_bind at 1. rewrite (blocks_conv_dw_run _ _ _ _ _ H5).
  unfold mbind at 1, M_bind at 1. unfold setattr at 1.
  unfold mbind at 1, M_bind at 1. rewrite (blocks_conv_dw_run _ _ _ _ _ H5).
  unfold mbind at 1, M_bind at 1. unfold setattr at 1.
  unfold mbind at 1, M_bind at 1. by rewrite Hfail.
Qed.
End ConstructorFailures.

(** ** The further properties on the concrete environment *)

Section ConcreteMore.
Let auto : PyVal := VStr "auto".
Let adapt := make_n_channel_input_conv2d_same (Externals0 := Sample.env).

Lemma adapter_constructor_failure_witness :
  adapt 1%positive 4 auto {[ "groups" := VInt 3 ]} Sample.stem_state
  = (Raise (mkExn "ValueError" "in_channels must be divisible by groups"),
     Sample.stem_state).
Proof.
  apply (adapter_constructor_failure (Externals0 := Sample.env)
           1%positive 4 auto {[ "groups" := VInt 3 ]} Sample.stem_state Sample.stem3).
  - vm_compute; reflexivity.
  - simpl. lia.
  - vm_compute; reflexivity.
Defined.

Lemma adapter_returns_constructed_module_witness :
  ∃ l s' c',
    adapt 1%positive 5 auto ∅ Sample.stem_state = (Return l, s')
    ∧ l ≠ 1%positive
    ∧ heap s' !! l = Some c'
    ∧ c' = mkConv2d 5 2 (VTuple [VInt 1; VInt 1]) (VTuple [VInt 2; VInt 2])
             (VTuple [VInt 0; VInt 0]) (VTuple [VInt 1; VInt 1]) (VInt 1) None
             (mkParameter (adapted_weight Sample.stem3 5) true)
    ∧ length (data (weight c')) = length (data (weight Sample.stem3)).
Proof.
  apply (adapter_returns_constructed_module (Externals0 := Sample.env)
           1%positive 5 auto ∅ Sample.stem_state Sample.stem3
           (Sample.built Sample.stem3 5)).
  - vm_compute; reflexivity.
  - simpl. lia.
  - simpl. lia.
  - vm_compute; reflexivity.
Defined.

Lemma adapter_preserves_store_witness :
  heap (adapt 1%positive 5 auto ∅ Sample.stem_state).2 !! 1%positive
  = Some Sample.stem3.
Proof.
  apply (adapter_preserves_store (Externals0 := Sample.env)
           1%positive 5 auto ∅ Sample.stem_state 1%positive Sample.stem3).
  vm_compute; reflexivity.
Defined.


Lemma adapter_channel_axis_witness :
  adapt 1%positive 6 auto ∅ Sample.grouped4_state
  = (Return (fresh (dom (heap Sample.grouped4_state))),
     rebuilt Sample.grouped4_state (Sample.built Sample.grouped4 6)
       (adapted_weight Sample.grouped4 6))
  ∧ channel_axis (adapted_weight Sample.grouped4 6)
      (if decide (6 > in_channels Sample.grouped4)
       then Z.min 6 (- (- 6 / in_channels Sample.grouped4) * 2)
       else Z.min 6 2).
Proof.
  apply (adapter_channel_axis (Externals0 := Sample.env)
           1%positive 6 auto ∅ Sample.grouped4_state Sample.grouped4
           (Sample.built Sample.grouped4 6) 2).
  - vm_compute; reflexivity.
  - simpl. lia.
  - simpl. lia.
  - lia.
  - vm_compute; reflexivity.
  - repeat constructor.
Defined.

Lemma adapter_widen_is_cyclic_witness :
  adapt 1%positive 5 auto ∅ Sample.stem_state
  = (Return (fresh (dom (heap Sample.stem_state))),
     rebuilt Sample.stem_state (Sample.built Sample.stem3 5)
       (adapted_weight Sample.stem3 5))
  ∧ ∀ o row row' k,
      data (weight Sample.stem3) !! o = Some row →
      adapted_weight Sample.stem3 5 !! o = Some row' →
      0 ≤ k < 5 →
      row' !! Z.to_nat k = row !! Z.to_nat (k `mod` in_channels Sample.stem3).
Proof.
  apply (adapter_widen_is_cyclic (Externals0 := Sample.env)
           1%positive 5 auto ∅ Sample.stem_state Sample.stem3
           (Sample.built Sample.stem3 5)).
  - vm_compute; reflexivity.
  - simpl. lia.
  - repeat constructor.
  - vm_compute; reflexivity.
Defined.

Lemma adapter_widen_exact_multiple_witness :
  adapt 1%positive (2 * in_channels Sample.stem3) auto ∅ Sample.stem_state
  = (Return (fresh (dom (heap Sample.stem_state))),
     rebuilt Sample.stem_state (Sample.built Sample.stem3 6)
       ((λ row, mjoin (replicate (Z.to_nat 2) row)) <$> data (weight Sample.stem3))).
Proof.
  apply (adapter_widen_exact_multiple (Externals0 := Sample.env)
           1%positive 2 auto ∅ Sample.stem_state Sample.stem3
           (Sample.built Sample.stem3 6)).
  - vm_compute; reflexivity.
  - simpl. lia.
  - lia.
  - repeat constructor.
  - vm_compute; reflexivity.
Defined.

Lemma adapter_zero_division_witness :
  (adapt 1%positive 3 auto ∅ Sample.no_input_state).1
  = Raise (mkExn "ZeroDivisionError" "float division by zero").
Proof.
  apply (adapter_zero_division (Externals0 := Sample.env)
           1%positive 3 auto ∅ Sample.no_input_state Sample.no_input
           (Sample.built Sample.no_input 3)).
  - vm_compute; reflexivity.
  - reflexivity.
  - lia.
  - vm_compute; reflexivity.
Defined.

Lemma widen_then_narrow_restores_weight_witness :
  ∃ l1 s1 l2 s2,
    adapt 1%positive 5 auto ∅ Sample.stem_state = (Return l1, s1)
    ∧ adapt l1 (in_channels Sample.stem3) auto ∅ s1 = (Return l2, s2)
    ∧ l2 ≠ 1%positive ∧ l2 ≠ l1
    ∧ (λ c', data (weight c')) <$> heap s2 !! l2 = Some (data (weight Sample.stem3)).
Proof.
  apply (widen_then_narrow_restores_weight (Externals0 := Sample.env)
           1%positive 5 auto ∅ ∅ Sample.stem_state Sample.stem3
           (Sample.built Sample.stem3 5)
           (Sample.built (Sample.built Sample.stem3 5) 3)).
  - vm_compute; reflexivity.
  - simpl. lia.
  - repeat constructor.
  - vm_compute; reflexivity.
  - vm_compute; reflexivity.
  - vm_compute; reflexivity.
Defined.




Lemma construct_unresolved_activation_witness :
  construct (Externals0 := Sample.env_no_act) B5Encoder true [1; 2; 3; 4]
    (ActStr "relu") (Some true) Sample.empty_state
  = (Raise (mkExn "KeyError" "relu"), Sample.empty_state).
Proof.
  apply (construct_unresolved_activation (Externals0 := Sample.env_no_act)
           B5Encoder true [1; 2; 3; 4] "relu" (Some true) Sample.empty_state).
  - reflexivity.
  - discriminate.
Defined.

Lemma construct_provider_failure_witness :
  construct (Externals0 := Sample.env_offline) MixNetXLEncoder true [1; 2; 3; 4]
    Swish None Sample.empty_state
  = (Raise (mkExn "RuntimeError" "no weights"),
     mkState (heap Sample.empty_state) (warnings Sample.empty_state)
       (provider_calls Sample.empty_state ++ [class_call MixNetXLEncoder true Swish])).
Proof.
  apply (construct_provider_failure (Externals0 := Sample.env_offline)
           MixNetXLEncoder true [1; 2; 3; 4] Swish Swish None Sample.empty_state).
  - reflexivity.
  - reflexivity.
  - reflexivity.
Defined.

Lemma construct_without_flag_keeps_backbone_witness :
  ∃ enc,
    construct (Externals0 := Sample.env) B2Encoder true [4; 2] Swish None
      Sample.empty_state
    = (Return enc,
       mkState Sample.store (warnings Sample.empty_state)
         (provider_calls Sample.empty_state ++ [class_call B2Encoder true Swish]))
    ∧ encoder enc = Sample.backbone
    ∧ _layers (base enc) = [4; 2].
Proof.
  apply (construct_without_flag_keeps_backbone (Externals0 := Sample.env)
           B2Encoder true [4; 2] Swish Swish None Sample.empty_state).
  - discriminate.
  - reflexivity.
  - reflexivity.
  - vm_compute; reflexivity.
Defined.

Lemma construct_no_stride_missing_group5_witness :
  ∃ e,
    is_lookup_error e
    ∧ construct (Externals0 := Sample.env_short) B0Encoder true [1; 2; 3; 4] Swish
        (Some true) Sample.empty_state
      = (Raise e,
         mkState Sample.store (warnings Sample.empty_state)
           (provider_calls Sample.empty_state ++ [class_call B0Encoder true Swish])).
Proof.
  apply (construct_no_stride_missing_group5 (Externals0 := Sample.env_short)
           B0Encoder true [1; 2; 3; 4] Swish Swish Sample.empty_state
           Sample.backbone_short).
  - discriminate.
  - reflexivity.
  - vm_compute; reflexivity.
  - vm_compute; reflexivity.
Defined.

Lemma construct_no_stride_missing_group3_witness :
  ∃ e,
    is_lookup_error e
    ∧ construct (Externals0 := Sample.env_gap) B7Encoder true [1; 2; 3; 4] Swish
        (Some true) Sample.empty_state
      = (Raise e,
         mkState (alter (set_dilation (VTuple [VInt 2; VInt 2])) 7%positive
                    (alter (set_stride (VTuple [VInt 1; VInt 1])) 7%positive
                       Sample.store))
           (warnings Sample.empty_state)
           (provider_calls Sample.empty_state ++ [class_call B7Encoder true Swish])).
Proof.
  apply (construct_no_stride_missing_group3 (Externals0 := Sample.env_gap)
           B7Encoder true [1; 2; 3; 4] Swish Swish Sample.empty_state
           Sample.backbone_gap).
  - discriminate.
  - reflexivity.
  - vm_compute; reflexivity.
  - vm_compute; reflexivity.
  - vm_compute; reflexivity.
Defined.
End ConcreteMore.
